(** * forex_python.converter: rate client and currency directory

    A shallow embedding of [forex_python/converter.py].  The Python module has
    two classes of interest, [CurrencyRates] (built on [Common]) and
    [CurrencyCodes].  The embedding follows the module top to bottom:

    - the run-time values the code manipulates (numbers, decoded JSON),
      with the handful of built-in operations the code applies to them
      (truthiness, [Decimal(..)], [float(..)], [*], [dict.get]);
    - a small monad that threads the outgoing HTTP requests and the raised
      exception through a method body;
    - the methods themselves, under the names of the source;
    - the properties of the methods. *)

From Stdlib Require Import ZArith NArith List String Ascii Bool Lia QArith Qpower.
From Stdlib Require Import PrimFloat FloatOps SpecFloat FloatAxioms.
From Stdlib Require Import DecimalString Morphisms.
Import ListNotations.

#[local] Set Warnings "-register-all".

Local Open Scope string_scope.
Local Open Scope Z_scope.

(* ================================================================= *)
(** ** Exceptions and results *)

(** Signals of the [decimal] module that the default context traps. *)
Inductive decimal_signal :=
| InvalidOperation
| Overflow.

(** The exceptions a call can end with.  The first two are the classes the
    module declares; the others are the built-in ones its operations can
    meet.  [TransportError] stands for whatever the HTTP collaborator itself
    raises (connection failure, timeout). *)
Inductive exn :=
| RatesNotAvailableError (msg : string)
| DecimalFloatMismatchError (msg : string)
| TypeError
| AttributeError
| KeyError
| ValueError
| OverflowError
| MemoryError
| JSONDecodeError
| DecimalException (signal : decimal_signal)
| TransportError (detail : string).

Inductive result (A : Type) :=
| Return (a : A)
| Raise (e : exn).

Arguments Return {A} a.
Arguments Raise {A} e.

(** [try: m except TypeError: handler]. *)
Definition except_TypeError {A} (m : result A) (handler : result A) : result A :=
  match m with
  | Raise TypeError => handler
  | _ => m
  end.

(* ================================================================= *)
(** ** Numbers *)

(** *** Binary floating point

    A Python [float] is an IEEE 754 binary64 value: Rocq's primitive
    [float].  Conversions into it round to nearest, ties to even. *)

(** The binary64 value nearest to the integer [n]. *)
Definition float_of_Z (n : Z) : float :=
  SF2Prim (binary_normalize prec emax n 0 (n <? 0)).

Definition float_is_infinite (f : float) : bool :=
  match Prim2SF f with
  | S754_infinity _ => true
  | _ => false
  end.

(** [float(n)] for an [int], also the conversion [int * float] applies to
    its integer operand: an integer that rounds beyond the largest finite
    float is refused. *)
Definition float_of_int (n : Z) : result float :=
  let f := float_of_Z n in
  if float_is_infinite f then Raise OverflowError else Return f.

(** [float("<c>E<e>")], sign [s]: the binary64 value nearest to
    [(-1)^s * c * 10^e], as the JSON decoder and [Decimal.__float__]
    obtain it. *)
Definition float_of_literal (s : bool) (c : N) (e : Z) : float :=
  match c with
  | N0 => if s then (-0)%float else 0%float
  | Npos p =>
      if 0 <=? e
      then SF2Prim (binary_normalize prec emax
                      ((if s then Z.neg p else Z.pos p) * 10 ^ e) 0 s)
      else SF2Prim (SFdiv prec emax
                      (S754_finite s p 0)
                      (S754_finite false (Z.to_pos (10 ^ (- e))) 0))
  end.

(** *** Decimal floating point

    A [decimal.Decimal]: sign, coefficient and exponent, or one of the
    special values.  The diagnostic payload of a NaN is not tracked. *)
Inductive pydecimal :=
| DFinite (sign : bool) (coeff : N) (exp : Z)
| DInfinity (sign : bool)
| DNaN (sign : bool) (signaling : bool).

Inductive number :=
| NInt (n : Z)
| NFloat (f : float)
| NDecimal (d : pydecimal).

(** [len(str(c))]: the number of decimal digits of a coefficient. *)
Definition ndigits (c : N) : Z :=
  Z.of_nat (Decimal.nb_digits (N.to_uint c)).

(** The default arithmetic context of the [decimal] module. *)
Definition context_prec : Z := 28.
Definition context_Emax : Z := 999999.
Definition context_Emin : Z := -999999.
Definition context_Etiny : Z := context_Emin - context_prec + 1.
Definition context_Etop : Z := context_Emax - context_prec + 1.

(** [Decimal._fix] under the default context (ROUND_HALF_EVEN, clamp 0,
    Overflow trapped) on a finite value. *)
Definition dec_fix (s : bool) (c : N) (e : Z) : result pydecimal :=
  if (c =? 0)%N then
    Return (DFinite s 0 (Z.min (Z.max e context_Etiny) context_Emax))
  else
    let exp_min := ndigits c + e - context_prec in
    if exp_min >? context_Etop then Raise (DecimalException Overflow)
    else
      let exp_min := if exp_min <? context_Etiny then context_Etiny else exp_min in
      if e <? exp_min then
        let digits := ndigits c + e - exp_min in
        let '(c, e) := if digits <? 0 then (1%N, exp_min - 1) else (c, e) in
        let scale := (10 ^ Z.to_N (exp_min - e))%N in
        let q := (c / scale)%N in
        let r := (c mod scale)%N in
        let half := (scale / 2)%N in
        let changed := (half <? r)%N || ((r =? half)%N && N.odd q) in
        let coeff := if changed then (q + 1)%N else q in
        let '(coeff, exp_min) :=
          if changed && (ndigits coeff >? context_prec)
          then ((coeff / 10)%N, exp_min + 1)
          else (coeff, exp_min) in
        if exp_min >? context_Etop then Raise (DecimalException Overflow)
        else Return (DFinite s coeff exp_min)
      else Return (DFinite s c e).

Definition dec_is_zero (d : pydecimal) : bool :=
  match d with
  | DFinite _ c _ => (c =? 0)%N
  | _ => false
  end.

Definition dec_sign (d : pydecimal) : bool :=
  match d with
  | DFinite s _ _ | DInfinity s | DNaN s _ => s
  end.

(** [Decimal.__mul__] on two decimals. *)
Definition dec_mul (x y : pydecimal) : result pydecimal :=
  let resultsign := xorb (dec_sign x) (dec_sign y) in
  match x, y with
  | DNaN _ true, _ => Raise (DecimalException InvalidOperation)
  | _, DNaN _ true => Raise (DecimalException InvalidOperation)
  | DNaN s false, _ => Return (DNaN s false)
  | _, DNaN s false => Return (DNaN s false)
  | DInfinity _, _ =>
      if dec_is_zero y then Raise (DecimalException InvalidOperation)
      else Return (DInfinity resultsign)
  | _, DInfinity _ =>
      if dec_is_zero x then Raise (DecimalException InvalidOperation)
      else Return (DInfinity resultsign)
  | DFinite _ c1 e1, DFinite _ c2 e2 =>
      dec_fix resultsign (c1 * c2)%N (e1 + e2)
  end.

(** [Decimal(n)] for an [int]: exact. *)
Definition dec_of_int (n : Z) : pydecimal :=
  DFinite (n <? 0) (Z.abs_N n) 0.

(** The largest [k <= fuel] such that [2^k] divides [m], with the odd
    cofactor. *)
Fixpoint strip_twos (fuel : nat) (m : positive) : positive * nat :=
  match fuel, m with
  | S fuel', xO m' => let '(n, k) := strip_twos fuel' m' in (n, S k)
  | _, _ => (m, O)
  end.

(** [Decimal(f)] for a [float] ([Decimal.from_float]): exact.  The float
    is [n / 2^k] in lowest terms, the decimal [n * 5^k] with exponent
    [-k]. *)
Definition dec_of_float (f : float) : pydecimal :=
  match Prim2SF f with
  | S754_zero s => DFinite s 0 0
  | S754_infinity s => DInfinity s
  | S754_nan => DNaN false false
  | S754_finite s m e =>
      if 0 <=? e then DFinite s (Npos m * 2 ^ Z.to_N e)%N 0
      else
        let '(n, t) := strip_twos (Z.to_nat (- e)) m in
        let k := (Z.to_N (- e) - N.of_nat t)%N in
        DFinite s (Npos n * 5 ^ k)%N (- Z.of_N k)
  end.

(* ================================================================= *)
(** ** Run-time values *)

(** The values a decoded JSON document is made of.  A [dict] keeps its
    items in insertion order, keys without repeats. *)
Inductive pyval :=
| PNone
| PBool (b : bool)
| PNum (x : number)
| PStr (s : string)
| PList (l : list pyval)
| PDict (items : list (string * pyval)).

Definition pydict := list (string * pyval).

(** [d.get(key)] on the items of a dict, [None] of Rocq when absent. *)
Fixpoint dict_lookup (d : pydict) (key : string) : option pyval :=
  match d with
  | [] => None
  | (k, v) :: d' => if String.eqb k key then Some v else dict_lookup d' key
  end.

(** [d[key] = v]: replaces the value of an existing key in place, appends
    a new key. *)
Fixpoint dict_set (d : pydict) (key : string) (v : pyval) : pydict :=
  match d with
  | [] => [(key, v)]
  | (k, w) :: d' =>
      if String.eqb k key then (k, v) :: d' else (k, w) :: dict_set d' key v
  end.

(** [obj.get(key, default)]: only a dict has the method. *)
Definition py_get (obj : pyval) (key : string) (default : pyval) : result pyval :=
  match obj with
  | PDict d =>
      Return (match dict_lookup d key with
              | Some v => v
              | None => default
              end)
  | _ => Raise AttributeError
  end.

(** [bool(v)], the test behind [if v:] and [not v]. *)
Definition py_bool (v : pyval) : bool :=
  match v with
  | PNone => false
  | PBool b => b
  | PNum (NInt n) => negb (n =? 0)
  | PNum (NFloat f) => negb (f =? 0)%float
  | PNum (NDecimal d) => negb (dec_is_zero d)
  | PStr s => negb (String.eqb s "")
  | PList l => match l with [] => false | _ => true end
  | PDict d => match d with [] => false | _ => true end
  end.

(** [isinstance(x, Decimal)]. *)
Definition isinstance_Decimal (x : number) : bool :=
  match x with
  | NDecimal _ => true
  | _ => false
  end.

(** [Decimal(x)]. *)
Definition Decimal_of (x : number) : result pyval :=
  match x with
  | NInt n => Return (PNum (NDecimal (dec_of_int n)))
  | NFloat f => Return (PNum (NDecimal (dec_of_float f)))
  | NDecimal d => Return (PNum (NDecimal d))
  end.

(** [float(x)]. *)
Definition float_of (x : number) : result pyval :=
  match x with
  | NInt n =>
      match float_of_int n with
      | Return f => Return (PNum (NFloat f))
      | Raise e => Raise e
      end
  | NFloat f => Return (PNum (NFloat f))
  | NDecimal (DFinite s c e) => Return (PNum (NFloat (float_of_literal s c e)))
  | NDecimal (DInfinity s) =>
      Return (PNum (NFloat (if s then neg_infinity else infinity)))
  | NDecimal (DNaN _ false) => Return (PNum (NFloat nan))
  | NDecimal (DNaN _ true) => Raise ValueError
  end.

(** *** Multiplication *)

Definition lift_number (r : result number) : result pyval :=
  match r with
  | Return x => Return (PNum x)
  | Raise e => Raise e
  end.

Definition lift_decimal (r : result pydecimal) : result number :=
  match r with
  | Return d => Return (NDecimal d)
  | Raise e => Raise e
  end.

(** [x * y] on numbers.  An [int] meets a [float] as a float and a
    [Decimal] as a decimal; a [Decimal] and a [float] do not multiply. *)
Definition num_mul (x y : number) : result number :=
  match x, y with
  | NInt a, NInt b => Return (NInt (a * b))
  | NInt a, NFloat g =>
      match float_of_int a with
      | Return f => Return (NFloat (f * g)%float)
      | Raise e => Raise e
      end
  | NFloat f, NInt b =>
      match float_of_int b with
      | Return g => Return (NFloat (f * g)%float)
      | Raise e => Raise e
      end
  | NFloat f, NFloat g => Return (NFloat (f * g)%float)
  | NDecimal d, NDecimal d' => lift_decimal (dec_mul d d')
  | NDecimal d, NInt b => lift_decimal (dec_mul d (dec_of_int b))
  | NInt a, NDecimal d => lift_decimal (dec_mul d (dec_of_int a))
  | NDecimal _, NFloat _ => Raise TypeError
  | NFloat _, NDecimal _ => Raise TypeError
  end.

Definition ssize_t_max : Z := 2 ^ 63 - 1.

(** [seq * n] for a sequence of [len] items: the repetition count, or the
    exception when the count does not fit an index ([OverflowError]) or
    the result is too long ([too_long]: [OverflowError] for a [str],
    [MemoryError] for a [list]).  The length is counted in items of the
    model, which for a [str] are bytes where Python counts code points;
    exhaustion of the actual memory is not modelled. *)
Definition repeat_count (too_long : exn) (len : nat) (n : Z) : result nat :=
  if (n >? ssize_t_max) || (n <? - ssize_t_max - 1) then Raise OverflowError
  else if n <=? 0 then Return O
  else if Z.of_nat len * n >? ssize_t_max then Raise too_long
  else Return (Z.to_nat n).

Fixpoint string_repeat (s : string) (n : nat) : string :=
  match n with
  | O => ""
  | S n' => s ++ string_repeat s n'
  end.

Fixpoint list_repeat {A} (l : list A) (n : nat) : list A :=
  match n with
  | O => []
  | S n' => l ++ list_repeat l n'
  end.

(** [v * y] for a decoded value [v] and a number [y]. *)
Definition py_mul (v : pyval) (y : number) : result pyval :=
  match v with
  | PNum x => lift_number (num_mul x y)
  | PBool b => lift_number (num_mul (NInt (if b then 1 else 0)) y)
  | PStr s =>
      match y with
      | NInt n =>
          match repeat_count OverflowError (String.length s) n with
          | Return k => Return (PStr (string_repeat s k))
          | Raise e => Raise e
          end
      | _ => Raise TypeError
      end
  | PList l =>
      match y with
      | NInt n =>
          match repeat_count MemoryError (List.length l) n with
          | Return k => Return (PList (list_repeat l k))
          | Raise e => Raise e
          end
      | _ => Raise TypeError
      end
  | PNone | PDict _ => Raise TypeError
  end.

(* ================================================================= *)
(** ** JSON documents and their decoding *)

(** A JSON document as the parser sees it, before it chooses a Python
    type for the numbers.  A number written without fraction and exponent
    is [JInt]; any other is [JReal], with the digits of the literal as
    coefficient and its decimal exponent.  The constants [NaN] and
    [Infinity], which are not JSON, are left out. *)
Inductive json :=
| JNull
| JBool (b : bool)
| JInt (n : Z)
| JReal (sign : bool) (coeff : N) (exp : Z)
| JString (s : string)
| JArray (elements : list json)
| JObject (members : list (string * json)).

(** The dict built from the members of an object, in order: a repeated
    name keeps its first position and its last value. *)
Definition dict_of_items (items : list (string * pyval)) : pydict :=
  fold_left (fun d kv => dict_set d (fst kv) (snd kv)) items [].

(** [json.loads] on a parsed document: with [use_decimal] a real number
    becomes a [Decimal] with the digits of the literal, without it the
    nearest [float]. *)
Fixpoint decode (use_decimal : bool) (j : json) : pyval :=
  match j with
  | JNull => PNone
  | JBool b => PBool b
  | JInt n => PNum (NInt n)
  | JReal s c e =>
      if use_decimal then PNum (NDecimal (DFinite s c e))
      else PNum (NFloat (float_of_literal s c e))
  | JString s => PStr s
  | JArray l => PList (map (decode use_decimal) l)
  | JObject m =>
      PDict (dict_of_items
               ((fix members (m : list (string * json)) : list (string * pyval) :=
                   match m with
                   | [] => []
                   | (k, v) :: m' => (k, decode use_decimal v) :: members m'
                   end) m))
  end.

(** [json.loads(text, use_decimal=...)].  The text of a body is taken as
    already parsed by the JSON collaborator: [None] is a body that is not
    a JSON document.  The resource limits of the decoder (the digit limit
    on integer literals, the recursion limit on nested documents) are not
    modelled. *)
Definition json_loads (text : option json) (use_decimal : bool) : result pyval :=
  match text with
  | Some j => Return (decode use_decimal j)
  | None => Raise JSONDecodeError
  end.

(* ================================================================= *)
(** ** Dates *)

(** A [datetime.date]: the constructor of the class admits years 1 to
    9999, months 1 to 12 and the days of the month. *)
Record date := { year : N; month : N; day : N }.

Definition str_of_N (n : N) : string :=
  NilEmpty.string_of_uint (N.to_uint n).

(** The [%m] and [%d] directives: two digits, zero-padded. *)
Definition two_digits (n : N) : string :=
  if (n <? 10)%N then "0" ++ str_of_N n else str_of_N n.

(** [d.strftime('%Y-%m-%d')].  [%Y] is the year as a decimal number; C
    libraries differ on padding a year below 1000, and agree on the
    four-digit years. *)
Definition strftime_Y_m_d (d : date) : string :=
  str_of_N (year d) ++ "-" ++ two_digits (month d) ++ "-" ++ two_digits (day d).

(* ================================================================= *)
(** ** The HTTP collaborator and the monad of a method body *)

(** What [safe_requests.get(url, params=..., timeout=...)] is called
    with. *)
Record Request := {
  url : string;
  params : list (string * string);
  timeout : Z
}.

(** What the code reads of a response. *)
Record Response := {
  status_code : Z;
  text : option json
}.

(** [response.json()]: the body decoded with the defaults of the JSON
    module, real numbers as [float]. *)
Definition response_json (response : Response) : result pyval :=
  json_loads (text response) false.

Inductive fetched :=
| Answered (response : Response)
| Failed (detail : string).

Definition Transport := Request -> fetched.

(** A method body: it reads the transport, appends the requests it
    issues to a log and ends with a value or an exception. *)
Definition IO (A : Type) : Type :=
  Transport -> list Request -> list Request * result A.

Class Monad (M : Type -> Type) := {
  ret : forall {A}, A -> M A;
  bind : forall {A B}, M A -> (A -> M B) -> M B
}.

#[export] Instance Monad_result : Monad result := {
  ret := fun A a => Return a;
  bind := fun A B m k =>
    match m with
    | Return a => k a
    | Raise e => Raise e
    end
}.

#[export] Instance Monad_IO : Monad IO := {
  ret := fun A a _ log => (log, Return a);
  bind := fun A B m k t log =>
    match m t log with
    | (log', Return a) => k a t log'
    | (log', Raise e) => (log', Raise e)
    end
}.

Declare Scope monad_scope.
Notation "x <- m ;; k" := (bind m (fun x => k))
  (at level 61, m at next level, right associativity) : monad_scope.
Local Open Scope monad_scope.

Definition raise {A} (e : exn) : IO A :=
  fun _ log => (log, Raise e).

Definition lift {A} (r : result A) : IO A :=
  fun _ log => (log, r).

Definition safe_requests_get
  (url : string) (params : list (string * string)) (timeout : Z) : IO Response :=
  fun transport log =>
    let request := {| url := url; params := params; timeout := timeout |} in
    ((log ++ [request])%list,
     match transport request with
     | Answered response => Return response
     | Failed detail => Raise (TransportError detail)
     end).

(** A call from outside: the requests issued and how the call ended. *)
Definition run {A} (m : IO A) (transport : Transport) : list Request * result A :=
  m transport [].

Definition requests_of {A} (m : IO A) (transport : Transport) : list Request :=
  fst (run m transport).

Definition outcome_of {A} (m : IO A) (transport : Transport) : result A :=
  snd (run m transport).

(* ================================================================= *)
(** ** class Common *)

Module Common.

Record t := { _force_decimal : bool }.

(** [Common(force_decimal=False)]. *)
Definition __init__ (force_decimal : bool) : t :=
  {| _force_decimal := force_decimal |}.

Definition _source_url (self : t) : string :=
  "https://theforexapi.com/api/".

Definition _get_date_string (self : t) (date_obj : option date) : string :=
  match date_obj with
  | None => "latest"
  | Some d =>
      let date_str := strftime_Y_m_d d in
      date_str
  end.

Definition _decode_rates
  (self : t) (response : Response) (use_decimal : bool) (date_str : option string)
  : result pyval :=
  decoded_data <-
    (if _force_decimal self || use_decimal
     then json_loads (text response) true
     else response_json response) ;;
  py_get decoded_data "rates" (PDict []).

Definition _get_decoded_rate
  (self : t) (response : Response) (dest_cur : string)
  (use_decimal : bool) (date_str : option string) : result pyval :=
  rates <- _decode_rates self response use_decimal date_str ;;
  py_get rates dest_cur PNone.

End Common.

(* ================================================================= *)
(** ** class CurrencyRates(Common) *)

Module CurrencyRates.

Import Common.

Definition source_not_ready : exn :=
  RatesNotAvailableError "Currency Rates Source Not Ready".

Definition get_rates
  (self : Common.t) (base_cur : string) (date_obj : option date) : IO pyval :=
  let date_str := _get_date_string self date_obj in
  let payload := [("base", base_cur); ("rtype", "fpy")] in
  let source_url := _source_url self ++ date_str in
  response <- safe_requests_get source_url payload 60 ;;
  if status_code response =? 200 then
    rates <- lift (_decode_rates self response false (Some date_str)) ;;
    ret rates
  else raise source_not_ready.

Definition get_rate
  (self : Common.t) (base_cur dest_cur : string) (date_obj : option date)
  : IO pyval :=
  if String.eqb base_cur dest_cur then
    if _force_decimal self then lift (Decimal_of (NInt 1))
    else ret (PNum (NFloat 1))
  else
    let date_str := _get_date_string self date_obj in
    let payload := [("base", base_cur); ("symbols", dest_cur); ("rtype", "fpy")] in
    let source_url := _source_url self ++ date_str in
    response <- safe_requests_get source_url payload 60 ;;
    if status_code response =? 200 then
      rate <- lift (_get_decoded_rate self response dest_cur false (Some date_str)) ;;
      if negb (py_bool rate) then
        raise (RatesNotAvailableError
                 ("Currency Rate " ++ base_cur ++ " => " ++ dest_cur
                  ++ " not available for Date " ++ date_str))
      else ret rate
    else raise source_not_ready.

Definition mismatch : exn :=
  DecimalFloatMismatchError
    "convert requires amount parameter is of type Decimal when force_decimal=True".

Definition convert
  (self : Common.t) (base_cur dest_cur : string) (amount : number)
  (date_obj : option date) : IO pyval :=
  let use_decimal :=
    if isinstance_Decimal amount then true else _force_decimal self in
  if String.eqb base_cur dest_cur then
    if use_decimal then lift (Decimal_of amount)
    else lift (float_of amount)
  else
    let date_str := _get_date_string self date_obj in
    let payload := [("base", base_cur); ("symbols", dest_cur); ("rtype", "fpy")] in
    let source_url := _source_url self ++ date_str in
    response <- safe_requests_get source_url payload 60 ;;
    if status_code response =? 200 then
      rate <- lift (_get_decoded_rate self response dest_cur use_decimal (Some date_str)) ;;
      if negb (py_bool rate) then
        raise (RatesNotAvailableError
                 ("Currency " ++ source_url ++ " => " ++ dest_cur
                  ++ " rate not available for Date " ++ date_str ++ "."))
      else
        lift (except_TypeError
                (converted_amount <- py_mul rate amount ;;
                 ret converted_amount)
                (Raise mismatch))
    else raise source_not_ready.

(** [_CURRENCY_FORMATTER = CurrencyRates()] *)
Definition _CURRENCY_FORMATTER : Common.t := Common.__init__ false.

End CurrencyRates.

(* ================================================================= *)
(** ** class CurrencyCodes *)

Module CurrencyCodes.

(** The decoded content of [raw_data/currencies.json]: a JSON array of
    objects. *)
Definition table := list pydict.

Record t := { __currency_data : option table }.

Definition __init__ : t := {| __currency_data := None |}.

(** The property [_currency_data]: loads the file on first use and keeps
    it.  [raw_data] is what reading and decoding the file yields. *)
Definition _currency_data (raw_data : table) (self : t) : t * table :=
  match __currency_data self with
  | None => ({| __currency_data := Some raw_data |}, raw_data)
  | Some data => (self, data)
  end.

(** [item[key]]. *)
Definition py_subscript (item : pydict) (key : string) : result pyval :=
  match dict_lookup item key with
  | Some v => Return v
  | None => Raise KeyError
  end.

(** [v == s] for a string [s]: only an equal string is equal to it. *)
Definition py_eq_str (v : pyval) (s : string) : bool :=
  match v with
  | PStr s' => String.eqb s' s
  | _ => false
  end.

(** [next((item for item in data if item[key] == value), None)]. *)
Fixpoint next_item (data : table) (key : string) (value : string) : result pyval :=
  match data with
  | [] => Return PNone
  | item :: rest =>
      field <- py_subscript item key ;;
      if py_eq_str field value then Return (PDict item)
      else next_item rest key value
  end.

Definition _get_data (raw_data : table) (self : t) (currency_code : string)
  : t * result pyval :=
  let '(self, data) := _currency_data raw_data self in
  (self, next_item data "cc" currency_code).

Definition _get_data_from_symbol (raw_data : table) (self : t) (symbol : string)
  : t * result pyval :=
  let '(self, data) := _currency_data raw_data self in
  (self, next_item data "symbol" symbol).

Definition get_symbol (raw_data : table) (self : t) (currency_code : string)
  : t * result pyval :=
  let '(self, found) := _get_data raw_data self currency_code in
  (self,
   currency_dict <- found ;;
   if py_bool currency_dict then py_get currency_dict "symbol" PNone
   else Return PNone).

Definition get_currency_name (raw_data : table) (self : t) (currency_code : string)
  : t * result pyval :=
  let '(self, found) := _get_data raw_data self currency_code in
  (self,
   currency_dict <- found ;;
   if py_bool currency_dict then py_get currency_dict "name" PNone
   else Return PNone).

Definition get_currency_code_from_symbol (raw_data : table) (self : t) (symbol : string)
  : t * result pyval :=
  let '(self, found) := _get_data_from_symbol raw_data self symbol in
  (self,
   currency_dict <- found ;;
   if py_bool currency_dict then py_get currency_dict "cc" PNone
   else Return PNone).

(** [_CURRENCY_CODES = CurrencyCodes()] *)
Definition _CURRENCY_CODES : t := __init__.

End CurrencyCodes.

(* ================================================================= *)
(** * Vocabulary of the properties *)

(** ** The number a value denotes *)

(** An extended rational: what a [float] or a [Decimal] stands for. *)
Inductive xnum :=
| Finite (q : Q)
| Infinite (negative : bool)
| NotANumber.

Definition signed (s : bool) (q : Q) : Q :=
  if s then (- q)%Q else q.

Definition dec_value (d : pydecimal) : xnum :=
  match d with
  | DFinite s c e => Finite (signed s (inject_Z (Z.of_N c)) * (10 # 1) ^ e)%Q
  | DInfinity s => Infinite s
  | DNaN _ _ => NotANumber
  end.

Definition float_value (f : float) : xnum :=
  match Prim2SF f with
  | S754_zero _ => Finite 0
  | S754_infinity s => Infinite s
  | S754_nan => NotANumber
  | S754_finite s m e => Finite (signed s (inject_Z (Z.pos m)) * (2 # 1) ^ e)%Q
  end.

Definition value_of (x : number) : xnum :=
  match x with
  | NInt n => Finite (inject_Z n)
  | NFloat f => float_value f
  | NDecimal d => dec_value d
  end.

(** Two values are numerically equal when they denote the same extended
    rational: the same rational, the same infinity, or no number on both
    sides. *)
Definition same_value (u v : xnum) : Prop :=
  match u, v with
  | Finite p, Finite q => (p == q)%Q
  | Infinite s, Infinite s' => s = s'
  | NotANumber, NotANumber => True
  | _, _ => False
  end.

(** A number is exactly zero when it denotes the rational 0. *)
Definition is_zero (x : number) : bool :=
  match value_of x with
  | Finite q => Qeq_bool q 0
  | _ => false
  end.

(** The type that carries a number. *)
Inductive representation :=
| AsInt
| AsFloat
| AsDecimal.

Definition representation_of (x : number) : representation :=
  match x with
  | NInt _ => AsInt
  | NFloat _ => AsFloat
  | NDecimal _ => AsDecimal
  end.

(** The amounts [convert] re-expresses without loss: a [Decimal], a
    [float], and an [int] when it goes through [Decimal(amount)]; an [int]
    that goes through [float(amount)] may be rounded or rejected. *)
Definition exactly_converted (force_decimal : bool) (x : number) : bool :=
  match x with
  | NInt _ => force_decimal
  | NFloat _ | NDecimal _ => true
  end.

(** ** Payloads *)

(** The value a list of named items gives a name: that of its last item
    of that name. *)
Fixpoint last_binding {A} (items : list (string * A)) (name : string) : option A :=
  match items with
  | [] => None
  | (k, v) :: rest =>
      match last_binding rest name with
      | Some w => Some w
      | None => if String.eqb k name then Some v else None
      end
  end.

(** The value a JSON object gives a name. *)
Definition json_member (members : list (string * json)) (name : string) : option json :=
  last_binding members name.

Definition json_is_number (j : json) : bool :=
  match j with
  | JInt _ | JReal _ _ _ => true
  | _ => false
  end.

(** A rates payload: an object whose [rates] member, when there is one,
    is an object that maps [dest_cur], when it does, to a number. *)
Definition rates_payload (body : json) (dest_cur : string) : Prop :=
  exists members,
    body = JObject members /\
    match json_member members "rates" with
    | None => True
    | Some (JObject rates) =>
        match json_member rates dest_cur with
        | None => True
        | Some j => json_is_number j = true
        end
    | Some _ => False
    end.

(** The rate a payload quotes for a currency. *)
Definition quoted_rate (body : json) (dest_cur : string) : option json :=
  match body with
  | JObject members =>
      match json_member members "rates" with
      | Some (JObject rates) => json_member rates dest_cur
      | _ => None
      end
  | _ => None
  end.

(** The number the client reads for a currency in a payload: the quoted
    rate, decoded. *)
Definition decoded_quote (use_decimal : bool) (body : json) (dest_cur : string)
  : option number :=
  match quoted_rate body dest_cur with
  | Some j =>
      match decode use_decimal j with
      | PNum x => Some x
      | _ => None
      end
  | None => None
  end.

(** ** Requests *)

Definition digit (n : N) : string :=
  String (ascii_of_N (48 + n)) "".

(** A date written YYYY-MM-DD, digit by digit. *)
Definition iso_date (d : date) : string :=
  (digit (year d / 1000) ++ digit (year d / 100 mod 10)
   ++ digit (year d / 10 mod 10) ++ digit (year d mod 10)
   ++ "-" ++ digit (month d / 10) ++ digit (month d mod 10)
   ++ "-" ++ digit (day d / 10) ++ digit (day d mod 10))%N.

(** A date of the Gregorian calendar with a four-digit year. *)
Definition calendar_date (d : date) : Prop :=
  (1000 <= year d <= 9999 /\ 1 <= month d <= 12 /\ 1 <= day d <= 31)%N.




(** The request the code issues, in the terms of the code. *)
Definition issued_request
  (self : Common.t) (base_cur : string) (dest_cur : option string)
  (date_obj : option date) : Request :=
  {| url := Common._source_url self ++ Common._get_date_string self date_obj;
     params :=
       match dest_cur with
       | Some dest => [("base", base_cur); ("symbols", dest); ("rtype", "fpy")]
       | None => [("base", base_cur); ("rtype", "fpy")]
       end;
     timeout := 60 |}.

(** ** The currency directory *)

(** The record has the field [key] and its value is the string [value]. *)
Definition field_is (key value : string) (item : pydict) : bool :=
  match dict_lookup item key with
  | Some v => CurrencyCodes.py_eq_str v value
  | None => false
  end.

(** The first record of the table whose field [key] is [value]. *)
Definition first_match (data : CurrencyCodes.table) (key value : string)
  : option pydict :=
  find (field_is key value) data.

(** The field of the record found, the not-found sentinel otherwise. *)
Definition field_or_None (found : option pydict) (key : string) : pyval :=
  match found with
  | Some item =>
      match dict_lookup item key with
      | Some v => v
      | None => PNone
      end
  | None => PNone
  end.

(** A record of the data file has at least the fields [cc], [symbol]
    and [name]. *)
Definition currency_record (item : pydict) : Prop :=
  dict_lookup item "cc" <> None /\
  dict_lookup item "symbol" <> None /\
  dict_lookup item "name" <> None.

(** The table a lookup scans: the one already loaded, the file's
    otherwise. *)
Definition loaded_table (raw_data : CurrencyCodes.table) (self : CurrencyCodes.t)
  : CurrencyCodes.table :=
  snd (CurrencyCodes._currency_data raw_data self).

(** ** Messages *)

(** The message of [get_rate] for a missing rate. *)
Definition rate_not_available (self : Common.t) (base_cur dest_cur : string)
  (date_obj : option date) : exn :=
  RatesNotAvailableError
    ("Currency Rate " ++ base_cur ++ " => " ++ dest_cur
     ++ " not available for Date " ++ Common._get_date_string self date_obj).

(** The message of [convert] for a missing rate. *)
Definition conversion_rate_not_available (self : Common.t) (dest_cur : string)
  (date_obj : option date) : exn :=
  RatesNotAvailableError
    ("Currency "
     ++ (Common._source_url self ++ Common._get_date_string self date_obj)
     ++ " => " ++ dest_cur ++ " rate not available for Date "
     ++ Common._get_date_string self date_obj ++ ".").

(** What [get_rate] makes of a response, once fetched. *)
Definition rate_of_response (self : Common.t) (base_cur dest_cur : string)
  (date_obj : option date) (response : Response) : result pyval :=
  if status_code response =? 200 then
    match Common._get_decoded_rate self response dest_cur false
            (Some (Common._get_date_string self date_obj)) with
    | Return rate =>
        if py_bool rate then Return rate
        else Raise (rate_not_available self base_cur dest_cur date_obj)
    | Raise e => Raise e
    end
  else Raise CurrencyRates.source_not_ready.

(** What [convert] makes of a response, once fetched. *)
Definition conversion_of_response (self : Common.t) (dest_cur : string)
  (amount : number) (date_obj : option date) (response : Response) : result pyval :=
  if status_code response =? 200 then
    match Common._get_decoded_rate self response dest_cur
            (isinstance_Decimal amount || Common._force_decimal self)
            (Some (Common._get_date_string self date_obj)) with
    | Return rate =>
        if py_bool rate then
          except_TypeError (py_mul rate amount) (Raise CurrencyRates.mismatch)
        else Raise (conversion_rate_not_available self dest_cur date_obj)
    | Raise e => Raise e
    end
  else Raise CurrencyRates.source_not_ready.


(** How a fetch ends: with what the continuation makes of the response,
    or with the failure of the transport. *)
Definition after_fetch (transport : Transport) (request : Request)
  (k : Response -> result pyval) : result pyval :=
  match transport request with
  | Answered response => k response
  | Failed detail => Raise (TransportError detail)
  end.

(** ** Sample transports and payloads *)

(** A transport that answers every request alike. *)
Definition always (response : Response) : Transport :=
  fun _ => Answered response.

Definition service_unavailable : Response :=
  {| status_code := 503; text := None |}.

Definition ok (body : json) : Response :=
  {| status_code := 200; text := Some body |}.

(** The body [{"rates": {"EUR": 0.85}}]. *)
Definition eur_085 : json :=
  JObject [("rates", JObject [("EUR", JReal false 85 (-2))])].


(** The body [{"rates": {}}]. *)
Definition no_rates : json :=
  JObject [("rates", JObject [])].

(** The directory entry
    [{"cc": "USD", "symbol": "$", "name": "US Dollar"}]. *)
Definition usd_record : pydict :=
  [("cc", PStr "USD"); ("symbol", PStr "$"); ("name", PStr "US Dollar")].

(** ** Domain errors *)

(** The two exception classes the module declares. *)
Definition domain_error (e : exn) : bool :=
  match e with
  | RatesNotAvailableError _ | DecimalFloatMismatchError _ => true
  | _ => false
  end.

(** ** Representations inside a value *)

(** Every number that occurs in the value, at any depth, satisfies [P]. *)
Fixpoint all_numbers (P : number -> bool) (v : pyval) : bool :=
  match v with
  | PNum x => P x
  | PList l => forallb (all_numbers P) l
  | PDict d =>
      (fix items (d : list (string * pyval)) : bool :=
         match d with
         | [] => true
         | (_, w) :: d' => all_numbers P w && items d'
         end) d
  | _ => true
  end.

Definition is_float (x : number) : bool :=
  match x with
  | NFloat _ => true
  | _ => false
  end.

(** No [float] occurs anywhere in the value. *)
Definition float_free (v : pyval) : bool :=
  all_numbers (fun x => negb (is_float x)) v.

(** No [Decimal] occurs anywhere in the value. *)
Definition decimal_free (v : pyval) : bool :=
  all_numbers (fun x => negb (isinstance_Decimal x)) v.

(** ** Shapes of a JSON value *)

Definition json_is_object (j : json) : bool :=
  match j with
  | JObject _ => true
  | _ => false
  end.

(** The JSON values a truth test rejects once decoded: [null], [false],
    a zero, the empty string, the empty array and the empty object.  A
    real literal is a zero when its coefficient is zero and, decoded as a
    [float], also when it rounds to zero. *)
Definition json_falsy (use_decimal : bool) (j : json) : bool :=
  match j with
  | JNull => true
  | JBool b => negb b
  | JInt n => n =? 0
  | JReal s c e =>
      if use_decimal then (c =? 0)%N
      else (float_of_literal s c e =? 0)%float
  | JString s => String.eqb s ""
  | JArray l => match l with [] => true | _ => false end
  | JObject m => match m with [] => true | _ => false end
  end.


(** ** More transports *)

(** A transport that fails on every request. *)
Definition failing (detail : string) : Transport :=
  fun _ => Failed detail.

(** ** The three lookups of the directory *)

Inductive lookup_kind :=
| SymbolOfCode
| NameOfCode
| CodeOfSymbol.

Definition directory_lookup (kind : lookup_kind)
  : CurrencyCodes.table -> CurrencyCodes.t -> string
    -> CurrencyCodes.t * result pyval :=
  match kind with
  | SymbolOfCode => CurrencyCodes.get_symbol
  | NameOfCode => CurrencyCodes.get_currency_name
  | CodeOfSymbol => CurrencyCodes.get_currency_code_from_symbol
  end.

(** The field a lookup searches by and the field it reads. *)
Definition key_field (kind : lookup_kind) : string :=
  match kind with
  | SymbolOfCode | NameOfCode => "cc"
  | CodeOfSymbol => "symbol"
  end.

Definition read_field (kind : lookup_kind) : string :=
  match kind with
  | SymbolOfCode => "symbol"
  | NameOfCode => "name"
  | CodeOfSymbol => "cc"
  end.

(** The value [value] of the field [key] picks out one record of the
    table at most. *)
Definition identifies (data : CurrencyCodes.table) (key value : string) : Prop :=
  forall item item',
    In item data -> In item' data ->
    field_is key value item = true -> field_is key value item' = true ->
    item = item'.

(** The records the scan passes before it reaches a match: each has the
    key field, with another value. *)
Definition passed_over (key value : string) (item : pydict) : Prop :=
  dict_lookup item key <> None /\ field_is key value item = false.

(** Two sample records: both currencies are written with the same
    symbol. *)
Definition aud_record : pydict :=
  [("cc", PStr "AUD"); ("symbol", PStr "$"); ("name", PStr "Australian dollar")].

(** A record without the [cc] field. *)
Definition nameless_record : pydict :=
  [("symbol", PStr "?")].

(* ================================================================= *)
(** * Properties *)

Import Common CurrencyRates.

(** ** Running a method body *)

Ltac io_unfold :=
  unfold run, requests_of, outcome_of, after_fetch, issued_request,
    safe_requests_get, lift, raise;
  cbn -[_decode_rates _get_decoded_rate _get_date_string _source_url
        String.append py_mul py_bool Decimal_of float_of String.eqb Z.eqb].

Lemma get_rates_run self base_cur date_obj transport :
  run (get_rates self base_cur date_obj) transport =
  ([issued_request self base_cur None date_obj],
   after_fetch transport (issued_request self base_cur None date_obj)
     (fun response =>
        if status_code response =? 200
        then _decode_rates self response false
               (Some (_get_date_string self date_obj))
        else Raise source_not_ready)).
Proof.
  unfold get_rates. io_unfold.
  destruct (transport _) as [response | detail]; [|reflexivity].
  destruct (status_code response =? 200); [|reflexivity].
  destruct (_decode_rates _ _ _ _); reflexivity.
Qed.

Lemma get_rate_run_same self cur date_obj transport :
  run (get_rate self cur cur date_obj) transport =
  ([], Return (PNum (if _force_decimal self
                     then NDecimal (DFinite false 1 0)
                     else NFloat 1))).
Proof.
  unfold run, get_rate. rewrite String.eqb_refl.
  destruct (_force_decimal self); reflexivity.
Qed.

Lemma get_rate_run_fetch self base_cur dest_cur date_obj transport :
  base_cur <> dest_cur ->
  run (get_rate self base_cur dest_cur date_obj) transport =
  ([issued_request self base_cur (Some dest_cur) date_obj],
   after_fetch transport (issued_request self base_cur (Some dest_cur) date_obj)
     (rate_of_response self base_cur dest_cur date_obj)).
Proof.
  intros Hne. apply String.eqb_neq in Hne.
  unfold get_rate, rate_of_response. rewrite Hne. io_unfold.
  destruct (transport _) as [response | detail]; [|reflexivity].
  destruct (status_code response =? 200); [|reflexivity].
  destruct (_get_decoded_rate _ _ _ _ _) as [rate | e]; [|reflexivity].
  destruct (py_bool rate); reflexivity.
Qed.

Lemma convert_run_same self cur amount date_obj transport :
  run (convert self cur cur amount date_obj) transport =
  ([], if isinstance_Decimal amount || _force_decimal self
       then Decimal_of amount
       else float_of amount).
Proof.
  unfold run, convert. rewrite String.eqb_refl.
  destruct amount; destruct (_force_decimal self); reflexivity.
Qed.

Lemma convert_run_fetch self base_cur dest_cur amount date_obj transport :
  base_cur <> dest_cur ->
  run (convert self base_cur dest_cur amount date_obj) transport =
  ([issued_request self base_cur (Some dest_cur) date_obj],
   after_fetch transport (issued_request self base_cur (Some dest_cur) date_obj)
     (conversion_of_response self dest_cur amount date_obj)).
Proof.
  intros Hne. apply String.eqb_neq in Hne.
  unfold convert, conversion_of_response. rewrite Hne.
  replace (if isinstance_Decimal amount then true else _force_decimal self)
    with (isinstance_Decimal amount || _force_decimal self)
    by (destruct (isinstance_Decimal amount); reflexivity).
  io_unfold.
  destruct (transport _) as [response | detail]; [|reflexivity].
  destruct (status_code response =? 200); [|reflexivity].
  destruct (_get_decoded_rate _ _ _ _ _) as [rate | e]; [|reflexivity].
  destruct (py_bool rate); [|reflexivity].
  destruct (py_mul rate amount) as [v | e]; reflexivity.
Qed.

(** ** A source that is not ready *)

Lemma in_singleton {A} (x y : A) : In x [y] -> x = y.
Proof. intros [H | []]. symmetry. exact H. Qed.

(** C1. If the transport answers the request a rate operation issues with
    a status other than 200, then [get_rates], [get_rate] and [convert]
    each end by raising [RatesNotAvailableError]; no value is returned. *)
Theorem non_200_raises_RatesNotAvailableError
  (self : Common.t) (transport : Transport)
  (base_cur dest_cur : string) (amount : number) (date_obj : option date)
  (request : Request) (response : Response) :
  transport request = Answered response ->
  status_code response <> 200 ->
  (In request (requests_of (get_rates self base_cur date_obj) transport) ->
   outcome_of (get_rates self base_cur date_obj) transport
   = Raise (RatesNotAvailableError "Currency Rates Source Not Ready"))
  /\
  (In request (requests_of (get_rate self base_cur dest_cur date_obj) transport) ->
   outcome_of (get_rate self base_cur dest_cur date_obj) transport
   = Raise (RatesNotAvailableError "Currency Rates Source Not Ready"))
  /\
  (In request
      (requests_of (convert self base_cur dest_cur amount date_obj) transport) ->
   outcome_of (convert self base_cur dest_cur amount date_obj) transport
   = Raise (RatesNotAvailableError "Currency Rates Source Not Ready")).
Proof.
  intros Hanswer Hstatus. apply Z.eqb_neq in Hstatus.
  unfold requests_of, outcome_of.
  repeat split.
  - rewrite get_rates_run. cbn [fst snd]. intros Hin.
    apply in_singleton in Hin. subst request.
    unfold after_fetch. rewrite Hanswer, Hstatus. reflexivity.
  - destruct (String.eqb_spec base_cur dest_cur) as [-> | Hne].
    + rewrite get_rate_run_same. intros [].
    + rewrite (get_rate_run_fetch _ _ _ _ _ Hne). cbn [fst snd]. intros Hin.
      apply in_singleton in Hin. subst request.
      unfold after_fetch, rate_of_response. rewrite Hanswer, Hstatus. reflexivity.
  - destruct (String.eqb_spec base_cur dest_cur) as [-> | Hne].
    + rewrite convert_run_same. intros [].
    + rewrite (convert_run_fetch _ _ _ _ _ _ Hne). cbn [fst snd]. intros Hin.
      apply in_singleton in Hin. subst request.
      unfold after_fetch, conversion_of_response.
      rewrite Hanswer, Hstatus. reflexivity.
Qed.

Lemma non_200_raises_RatesNotAvailableError_witness :
  outcome_of (get_rates _CURRENCY_FORMATTER "USD" None) (always service_unavailable)
  = Raise (RatesNotAvailableError "Currency Rates Source Not Ready")
  /\
  outcome_of (get_rate _CURRENCY_FORMATTER "USD" "EUR" None)
    (always service_unavailable)
  = Raise (RatesNotAvailableError "Currency Rates Source Not Ready")
  /\
  outcome_of (convert _CURRENCY_FORMATTER "USD" "EUR" (NFloat 10) None)
    (always service_unavailable)
  = Raise (RatesNotAvailableError "Currency Rates Source Not Ready").
Proof.
  pose proof (non_200_raises_RatesNotAvailableError
                _CURRENCY_FORMATTER (always service_unavailable)
                "USD" "EUR" (NFloat 10) None) as H.
  assert (Hstatus : status_code service_unavailable <> 200) by discriminate.
  destruct (H (issued_request _CURRENCY_FORMATTER "USD" None None)
              service_unavailable eq_refl Hstatus) as (Hrates & _ & _).
  destruct (H (issued_request _CURRENCY_FORMATTER "USD" (Some "EUR") None)
              service_unavailable eq_refl Hstatus) as (_ & Hrate & Hconvert).
  split; [|split].
  - apply Hrates. simpl. left. reflexivity.
  - apply Hrate. simpl. left. reflexivity.
  - apply Hconvert. simpl. left. reflexivity.
Defined.

(** ** Dicts and decoded objects *)

Lemma dict_lookup_set d k v k' :
  dict_lookup (dict_set d k v) k'
  = if String.eqb k k' then Some v else dict_lookup d k'.
Proof.
  induction d as [| [k0 w] d IH]; simpl.
  - reflexivity.
  - destruct (String.eqb_spec k0 k) as [-> | Hk0]; simpl.
    + destruct (String.eqb k k'); reflexivity.
    + rewrite IH.
      destruct (String.eqb_spec k0 k') as [-> | Hk0']; [|reflexivity].
      apply String.eqb_neq in Hk0. rewrite String.eqb_sym, Hk0. reflexivity.
Qed.

Lemma dict_lookup_fold items : forall d name,
  dict_lookup (fold_left (fun d kv => dict_set d (fst kv) (snd kv)) items d) name
  = match last_binding items name with
    | Some v => Some v
    | None => dict_lookup d name
    end.
Proof.
  induction items as [| [k v] items IH]; intros d name; simpl.
  - reflexivity.
  - rewrite IH. destruct (last_binding items name); [reflexivity|].
    rewrite dict_lookup_set. destruct (String.eqb k name); reflexivity.
Qed.

Lemma dict_lookup_of_items items name :
  dict_lookup (dict_of_items items) name = last_binding items name.
Proof.
  unfold dict_of_items. rewrite dict_lookup_fold.
  destruct (last_binding items name); reflexivity.
Qed.

Lemma last_binding_map {A B} (f : A -> B) items name :
  last_binding (map (fun kv => (fst kv, f (snd kv))) items) name
  = option_map f (last_binding items name).
Proof.
  induction items as [| [k v] items IH]; simpl.
  - reflexivity.
  - rewrite IH. destruct (last_binding items name); simpl; [reflexivity|].
    destruct (String.eqb k name); reflexivity.
Qed.

Lemma decode_JObject use_decimal members :
  decode use_decimal (JObject members)
  = PDict (dict_of_items
             (map (fun kv => (fst kv, decode use_decimal (snd kv))) members)).
Proof.
  simpl. do 2 f_equal.
  induction members as [| [k v] members IH]; simpl; [reflexivity|].
  rewrite IH. reflexivity.
Qed.

(** [.get(name, default)] on a decoded object reads the member of the
    object. *)
Lemma py_get_decoded_object use_decimal members name default :
  py_get (decode use_decimal (JObject members)) name default
  = Return (match json_member members name with
            | Some j => decode use_decimal j
            | None => default
            end).
Proof.
  rewrite decode_JObject. unfold py_get, json_member.
  rewrite dict_lookup_of_items, last_binding_map.
  destruct (last_binding members name); reflexivity.
Qed.

(** ** Truthiness of a number *)

Lemma Qeq_bool_false (q : Q) : ~ (q == 0)%Q -> Qeq_bool q 0 = false.
Proof.
  intros Hq. destruct (Qeq_bool q 0) eqn:E; [|reflexivity].
  apply Qeq_bool_iff in E. contradiction.
Qed.

Lemma signed_zero s (q : Q) : (signed s q == 0)%Q <-> (q == 0)%Q.
Proof.
  destruct s; simpl; [|reflexivity].
  split; intros H.
  - rewrite <- (Qopp_involutive q), H. reflexivity.
  - rewrite H. reflexivity.
Qed.

Lemma inject_Z_zero n : (inject_Z n == 0)%Q <-> n = 0.
Proof.
  unfold Qeq, inject_Z. simpl. rewrite Z.mul_1_r. reflexivity.
Qed.

(** A scaled integer is zero exactly when the integer is. *)
Lemma scaled_is_zero s n (b : Q) e :
  ~ (b == 0)%Q ->
  Qeq_bool (signed s (inject_Z n) * b ^ e) 0 = (n =? 0).
Proof.
  intros Hb. destruct (Z.eqb_spec n 0) as [-> | Hn].
  - apply Qeq_bool_iff.
    assert (H0 : (signed s (inject_Z 0) == 0)%Q) by (apply signed_zero; reflexivity).
    rewrite H0. apply Qmult_0_l.
  - apply Qeq_bool_false. intros H.
    apply Qmult_integral in H. destruct H as [H | H].
    + apply signed_zero in H. exact (Hn (proj1 (inject_Z_zero n) H)).
    + revert H. apply Qpower_not_0. exact Hb.
Qed.

Lemma float_eqb_zero f :
  (f =? 0)%float
  = match Prim2SF f with
    | S754_zero _ => true
    | _ => false
    end.
Proof.
  rewrite FloatAxioms.eqb_spec.
  replace (Prim2SF 0) with (S754_zero false) by reflexivity.
  destruct (Prim2SF f) as [s | s | | s m e]; try reflexivity;
    destruct s; reflexivity.
Qed.

(** [bool(x)] is false exactly on the numbers that denote zero. *)
Lemma py_bool_number x : py_bool (PNum x) = negb (is_zero x).
Proof.
  destruct x as [n | f | d]; unfold is_zero; simpl.
  - f_equal. unfold Qeq_bool, inject_Z. simpl. rewrite Z.mul_1_r.
    destruct n; reflexivity.
  - f_equal. rewrite float_eqb_zero. unfold float_value.
    destruct (Prim2SF f) as [s | s | | s m e]; try reflexivity.
    symmetry. rewrite scaled_is_zero by (compute; discriminate). reflexivity.
  - destruct d as [s c e | s | s sig]; simpl; try reflexivity.
    f_equal. rewrite scaled_is_zero by (compute; discriminate).
    destruct c; reflexivity.
Qed.

(** ** Decoding a response *)

Lemma _decode_rates_object self response use_decimal date_str members :
  text response = Some (JObject members) ->
  _decode_rates self response use_decimal date_str
  = Return (match json_member members "rates" with
            | Some j => decode (_force_decimal self || use_decimal) j
            | None => PDict []
            end).
Proof.
  intros Htext. unfold _decode_rates, response_json. rewrite Htext.
  destruct (_force_decimal self || use_decimal);
    cbn [json_loads bind Monad_result]; apply py_get_decoded_object.
Qed.

(** On a rates payload the decoded rate is the quoted one, [None] when
    the payload quotes none. *)
Lemma _get_decoded_rate_payload self response dest_cur use_decimal date_str body :
  text response = Some body ->
  rates_payload body dest_cur ->
  _get_decoded_rate self response dest_cur use_decimal date_str
  = Return (match quoted_rate body dest_cur with
            | Some j => decode (_force_decimal self || use_decimal) j
            | None => PNone
            end).
Proof.
  intros Htext (members & -> & Hrates).
  unfold _get_decoded_rate.
  rewrite (_decode_rates_object _ _ _ _ _ Htext).
  cbn [bind Monad_result quoted_rate].
  destruct (json_member members "rates") as [[| | | | | | rates] |];
    try contradiction.
  - apply py_get_decoded_object.
  - reflexivity.
Qed.

Lemma decode_number use_decimal j :
  json_is_number j = true -> exists x, decode use_decimal j = PNum x.
Proof.
  destruct j; try discriminate; intros _; simpl.
  - eexists. reflexivity.
  - destruct use_decimal; eexists; reflexivity.
Qed.

(** ** A single rate *)

(** C2. For distinct base and destination currencies and a status-200
    answer that carries a rates payload, [get_rate] returns the decoded
    rate of the destination exactly when the payload quotes one and it is
    not zero; when the payload quotes none, or quotes zero, [get_rate]
    raises [RatesNotAvailableError]. *)
Theorem get_rate_returns_the_nonzero_quote
  (self : Common.t) (transport : Transport)
  (base_cur dest_cur : string) (date_obj : option date)
  (response : Response) (body : json) :
  base_cur <> dest_cur ->
  transport (issued_request self base_cur (Some dest_cur) date_obj)
  = Answered response ->
  status_code response = 200 ->
  text response = Some body ->
  rates_payload body dest_cur ->
  outcome_of (get_rate self base_cur dest_cur date_obj) transport
  = match decoded_quote (_force_decimal self) body dest_cur with
    | Some rate =>
        if is_zero rate
        then Raise (rate_not_available self base_cur dest_cur date_obj)
        else Return (PNum rate)
    | None => Raise (rate_not_available self base_cur dest_cur date_obj)
    end
  /\
  (decoded_quote (_force_decimal self) body dest_cur = None
   <-> quoted_rate body dest_cur = None).
Proof.
  intros Hne Hanswer Hstatus Htext Hpayload.
  unfold outcome_of. rewrite (get_rate_run_fetch _ _ _ _ _ Hne). cbn [snd].
  unfold after_fetch. rewrite Hanswer.
  unfold rate_of_response. rewrite Hstatus, Z.eqb_refl.
  rewrite (_get_decoded_rate_payload _ _ _ _ _ _ Htext Hpayload).
  rewrite orb_false_r. unfold decoded_quote.
  assert (Hnum : forall j, quoted_rate body dest_cur = Some j ->
                           json_is_number j = true).
  { destruct Hpayload as (members & -> & Hrates). cbn [quoted_rate].
    destruct (json_member members "rates") as [[| | | | | | rates] |];
      try contradiction; try discriminate.
    intros j Hj. rewrite Hj in Hrates. exact Hrates. }
  destruct (quoted_rate body dest_cur) as [j |].
  - destruct (decode_number (_force_decimal self) j (Hnum j eq_refl)) as [x Hx].
    rewrite Hx, py_bool_number.
    split; [destruct (is_zero x); reflexivity|].
    split; discriminate.
  - split; [reflexivity|]. split; reflexivity.
Qed.

Lemma get_rate_returns_the_nonzero_quote_witness :
  outcome_of (get_rate _CURRENCY_FORMATTER "USD" "EUR" None) (always (ok eur_085))
  = Return (PNum (NFloat (float_of_literal false 85 (-2))))
  /\
  outcome_of (get_rate _CURRENCY_FORMATTER "USD" "EUR" None) (always (ok no_rates))
  = Raise (RatesNotAvailableError
             "Currency Rate USD => EUR not available for Date latest").
Proof.
  split.
  - apply (get_rate_returns_the_nonzero_quote
             _CURRENCY_FORMATTER (always (ok eur_085)) "USD" "EUR" None
             (ok eur_085) eur_085);
      [discriminate | reflexivity | reflexivity | reflexivity |].
    exists [("rates", JObject [("EUR", JReal false 85 (-2))])].
    split; reflexivity.
  - apply (get_rate_returns_the_nonzero_quote
             _CURRENCY_FORMATTER (always (ok no_rates)) "USD" "EUR" None
             (ok no_rates) no_rates);
      [discriminate | reflexivity | reflexivity | reflexivity |].
    exists [("rates", JObject [])].
    split; [reflexivity | exact I].
Defined.

(** ** The same currency on both sides *)

(** C3. For every currency code and every date, [get_rate(c, c, date)]
    issues no request and returns the multiplicative identity: the
    [Decimal] 1 when the client forces decimals, the [float] 1.0
    otherwise. *)
Theorem get_rate_same_currency_is_one
  (self : Common.t) (transport : Transport) (cur : string)
  (date_obj : option date) :
  requests_of (get_rate self cur cur date_obj) transport = []
  /\
  outcome_of (get_rate self cur cur date_obj) transport
  = Return (PNum (if _force_decimal self
                  then NDecimal (DFinite false 1 0)
                  else NFloat 1))
  /\
  same_value (value_of (NDecimal (DFinite false 1 0))) (Finite 1)
  /\
  same_value (value_of (NFloat 1)) (Finite 1).
Proof.
  unfold requests_of, outcome_of.
  rewrite get_rate_run_same. repeat split.
Qed.

(** *** [Decimal(x)] is exact *)

#[local] Instance signed_compat s : Proper (Qeq ==> Qeq) (signed s).
Proof. intros p q Hpq. destruct s; simpl; rewrite Hpq; reflexivity. Qed.

Lemma signed_mult s (p q : Q) : (signed s (p * q) == signed s p * q)%Q.
Proof. destruct s; simpl; ring. Qed.

Lemma strip_twos_spec fuel : forall m n t,
  strip_twos fuel m = (n, t) ->
  Z.pos m = Z.pos n * 2 ^ Z.of_nat t /\ (t <= fuel)%nat.
Proof.
  induction fuel as [| fuel IH]; intros m n t H.
  - simpl in H. injection H as <- <-. split; [simpl; lia | lia].
  - destruct m as [m | m |]; simpl in H;
      try (injection H as <- <-; split; [simpl; lia | lia]).
    destruct (strip_twos fuel m) as [n' t'] eqn:E.
    injection H as <- <-. destruct (IH _ _ _ E) as [Hm Ht].
    split; [|lia].
    rewrite Nat2Z.inj_succ, Z.pow_succ_r by lia.
    change (Z.pos m~0) with (2 * Z.pos m). rewrite Hm. ring.
Qed.

Lemma inject_Z_pow (a n : Z) :
  0 <= n -> (inject_Z (a ^ n) == inject_Z a ^ n)%Q.
Proof. apply Zpower_Qpower. Qed.

Lemma dec_of_float_exact f :
  same_value (dec_value (dec_of_float f)) (float_value f).
Proof.
  unfold dec_of_float, float_value.
  destruct (Prim2SF f) as [s | s | | s m e]; try reflexivity.
  - destruct s; reflexivity.
  - destruct (Z.leb_spec 0 e) as [He | He].
    + cbn [dec_value same_value].
      rewrite N2Z.inj_mul, N2Z.inj_pow, Z2N.id by lia.
      change (Z.of_N 2) with 2. change (Z.of_N (N.pos m)) with (Z.pos m).
      rewrite inject_Z_mult, inject_Z_pow, signed_mult by lia.
      change (inject_Z 2) with (2 # 1).
      change ((10 # 1) ^ 0)%Q with 1%Q. ring.
    + destruct (strip_twos (Z.to_nat (- e)) m) as [n t] eqn:E.
      destruct (strip_twos_spec _ _ _ _ E) as [Hm Ht].
      cbn [dec_value same_value]. rewrite Hm.
      set (k := (Z.to_N (- e) - N.of_nat t)%N).
      assert (He' : e = - (Z.of_N k + Z.of_nat t)) by (subst k; lia).
      rewrite N2Z.inj_mul, N2Z.inj_pow.
      change (Z.of_N 5) with 5. change (Z.of_N (N.pos n)) with (Z.pos n).
      rewrite !inject_Z_mult, !inject_Z_pow, !signed_mult by lia.
      rewrite He'. rewrite !Qpower_opp.
      rewrite Qpower_plus by (compute; discriminate).
      change (inject_Z 5) with (5 # 1). change (inject_Z 2) with (2 # 1).
      assert (H10 : ((10 # 1) ^ Z.of_N k
                     == (2 # 1) ^ Z.of_N k * (5 # 1) ^ Z.of_N k)%Q).
      { rewrite <- Qmult_power. reflexivity. }
      rewrite H10.
      assert (H2k : ~ ((2 # 1) ^ Z.of_N k == 0)%Q)
        by (apply Qpower_not_0; compute; discriminate).
      assert (H5k : ~ ((5 # 1) ^ Z.of_N k == 0)%Q)
        by (apply Qpower_not_0; compute; discriminate).
      assert (H2t : ~ ((2 # 1) ^ Z.of_nat t == 0)%Q)
        by (apply Qpower_not_0; compute; discriminate).
      field. repeat split; assumption.
Qed.

Lemma dec_of_int_exact n :
  same_value (dec_value (dec_of_int n)) (Finite (inject_Z n)).
Proof.
  unfold dec_of_int. simpl. rewrite N2Z.inj_abs_N.
  destruct (Z.ltb_spec n 0) as [Hn | Hn]; simpl.
  - rewrite Z.abs_neq by lia. rewrite <- inject_Z_opp, Z.opp_involutive. ring.
  - rewrite Z.abs_eq by lia. ring.
Qed.

Lemma same_value_refl v : same_value v v.
Proof. destruct v; simpl; reflexivity || exact I. Qed.

(** C4 (amended). For every currency code, every amount and every date,
    [convert(c, c, a, date)] issues no request.  When [a] is a [Decimal]
    or a [float], or an [int] converted under forced decimals, it returns
    a number equal in value to [a] (an infinity comes back as that
    infinity, a NaN as a NaN): a [Decimal] when [a] is a [Decimal] or the
    client forces decimals, a [float] otherwise.  An [int] amount without
    forced decimals comes back as [float(a)], the float nearest to it, or
    ends in [OverflowError] when it is beyond the range of floats. *)
Theorem convert_same_currency_returns_amount
  (self : Common.t) (transport : Transport) (cur : string)
  (amount : number) (date_obj : option date) :
  requests_of (convert self cur cur amount date_obj) transport = []
  /\
  (exactly_converted (_force_decimal self) amount = true ->
   exists v,
     outcome_of (convert self cur cur amount date_obj) transport
     = Return (PNum v)
     /\ same_value (value_of v) (value_of amount)
     /\ representation_of v
        = if isinstance_Decimal amount || _force_decimal self
          then AsDecimal else AsFloat)
  /\
  (forall n : Z,
     amount = NInt n -> _force_decimal self = false ->
     outcome_of (convert self cur cur amount date_obj) transport
     = if float_is_infinite (float_of_Z n) then Raise OverflowError
       else Return (PNum (NFloat (float_of_Z n)))).
Proof.
  unfold requests_of, outcome_of.
  rewrite convert_run_same. cbn [fst snd]. split; [reflexivity|]. split.
  - intros Hexact. destruct amount as [n | f | d].
    + cbn [exactly_converted] in Hexact. rewrite Hexact.
      cbn [isinstance_Decimal orb Decimal_of].
      exists (NDecimal (dec_of_int n)). repeat split.
      cbn [value_of]. apply dec_of_int_exact.
    + destruct (_force_decimal self); cbn [isinstance_Decimal orb].
      * exists (NDecimal (dec_of_float f)). repeat split.
        apply dec_of_float_exact.
      * exists (NFloat f). repeat split. apply same_value_refl.
    + exists (NDecimal d). repeat split. apply same_value_refl.
  - intros n -> Hforce. rewrite Hforce. cbn [isinstance_Decimal orb].
    unfold float_of, float_of_int.
    destruct (float_is_infinite (float_of_Z n)); reflexivity.
Qed.

Lemma convert_same_currency_returns_amount_witness :
  exists v,
    outcome_of (convert (Common.__init__ true) "USD" "USD" (NFloat 0.5) None)
      (always service_unavailable)
    = Return (PNum v)
    /\ same_value (value_of v) (value_of (NFloat 0.5))
    /\ representation_of v = AsDecimal.
Proof.
  exact (proj1 (proj2 (convert_same_currency_returns_amount
                         (Common.__init__ true) (always service_unavailable)
                         "USD" (NFloat 0.5) None))
           eq_refl).
Defined.

(** The claim does not extend to every amount: without forced decimals the
    [int] amount [2^53 + 1] comes back as the float [2^53], which is not
    equal to it, and the [int] amount [2^1024] ends in [OverflowError]. *)
Lemma convert_same_currency_int_is_not_exact :
  outcome_of
    (convert _CURRENCY_FORMATTER "USD" "USD" (NInt (2 ^ 53 + 1)) None)
    (always service_unavailable)
  = Return (PNum (NFloat 0x1p+53))
  /\ ~ same_value (value_of (NFloat 0x1p+53)) (value_of (NInt (2 ^ 53 + 1)))
  /\ outcome_of
       (convert _CURRENCY_FORMATTER "USD" "USD" (NInt (2 ^ 1024)) None)
       (always service_unavailable)
     = Raise OverflowError.
Proof.
  split; [vm_compute; reflexivity|]. split; [|vm_compute; reflexivity].
  intros H. vm_compute in H. discriminate H.
Qed.

(** An [int] amount is converted by [Decimal(n)] under decimal mode, and
    goes through [float(n)] otherwise. *)
Remark convert_same_currency_int
  (self : Common.t) (transport : Transport) (cur : string) (n : Z)
  (date_obj : option date) :
  outcome_of (convert self cur cur (NInt n) date_obj) transport
  = if _force_decimal self
    then Return (PNum (NDecimal (dec_of_int n)))
    else if float_is_infinite (float_of_Z n) then Raise OverflowError
         else Return (PNum (NFloat (float_of_Z n))).
Proof.
  unfold outcome_of. rewrite convert_run_same. cbn [snd isinstance_Decimal orb].
  destruct (_force_decimal self); [reflexivity|].
  unfold float_of, float_of_int.
  destruct (float_is_infinite (float_of_Z n)); reflexivity.
Qed.

(** ** The rates field *)

(** C7. Decoding a status-200 answer whose body is a JSON object extracts
    its [rates] member; when the object has no such member the decoding
    yields the empty mapping, and that is what [get_rates] returns. *)
Theorem get_rates_extracts_the_rates_field
  (self : Common.t) (transport : Transport) (base_cur : string)
  (date_obj : option date) (response : Response)
  (members : list (string * json)) :
  transport (issued_request self base_cur None date_obj) = Answered response ->
  status_code response = 200 ->
  text response = Some (JObject members) ->
  (forall use_decimal date_str,
     _decode_rates self response use_decimal date_str
     = Return (match json_member members "rates" with
               | Some rates => decode (_force_decimal self || use_decimal) rates
               | None => PDict []
               end))
  /\
  outcome_of (get_rates self base_cur date_obj) transport
  = Return (match json_member members "rates" with
            | Some rates => decode (_force_decimal self) rates
            | None => PDict []
            end).
Proof.
  intros Hanswer Hstatus Htext. split.
  - intros use_decimal date_str. apply _decode_rates_object. exact Htext.
  - unfold outcome_of. rewrite get_rates_run. cbn [snd].
    unfold after_fetch. rewrite Hanswer, Hstatus, Z.eqb_refl.
    rewrite (_decode_rates_object _ _ _ _ _ Htext), orb_false_r. reflexivity.
Qed.

Lemma get_rates_extracts_the_rates_field_witness :
  outcome_of (get_rates _CURRENCY_FORMATTER "USD" None)
    (always (ok (JObject [("base", JString "USD")])))
  = Return (PDict []).
Proof.
  exact (proj2 (get_rates_extracts_the_rates_field
                  _CURRENCY_FORMATTER
                  (always (ok (JObject [("base", JString "USD")])))
                  "USD" None
                  (ok (JObject [("base", JString "USD")]))
                  [("base", JString "USD")]
                  eq_refl eq_refl eq_refl)).
Defined.

(** ** The request *)

Lemma in_N_range (P : N -> bool) (lo len : N) :
  forallb P (map N.of_nat (seq (N.to_nat lo) (N.to_nat len))) = true ->
  forall n, (lo <= n < lo + len)%N -> P n = true.
Proof.
  intros Hall n Hn. rewrite forallb_forall in Hall. apply Hall.
  rewrite <- (N2Nat.id n). apply in_map. apply in_seq. lia.
Qed.

Lemma year_four_digits y :
  (1000 <= y <= 9999)%N ->
  str_of_N y
  = (digit (y / 1000) ++ digit (y / 100 mod 10)
     ++ digit (y / 10 mod 10) ++ digit (y mod 10))%N.
Proof.
  intros Hy. apply String.eqb_eq.
  apply (in_N_range
           (fun y => String.eqb (str_of_N y)
                       (digit (y / 1000) ++ digit (y / 100 mod 10)
                        ++ digit (y / 10 mod 10) ++ digit (y mod 10))%N)
           1000%N 9000%N); [vm_compute; reflexivity | lia].
Qed.

Lemma two_digits_spec n :
  (n <= 99)%N -> two_digits n = (digit (n / 10) ++ digit (n mod 10))%N.
Proof.
  intros Hn. apply String.eqb_eq.
  apply (in_N_range
           (fun n => String.eqb (two_digits n)
                       (digit (n / 10) ++ digit (n mod 10))%N)
           0%N 100%N); [vm_compute; reflexivity | lia].
Qed.

(** On a calendar date [strftime('%Y-%m-%d')] writes YYYY-MM-DD. *)
Lemma strftime_iso d : calendar_date d -> strftime_Y_m_d d = iso_date d.
Proof.
  intros (Hy & Hm & Hd). unfold strftime_Y_m_d, iso_date.
  rewrite (year_four_digits _ Hy).
  rewrite (two_digits_spec (month d)), (two_digits_spec (day d)) by lia.
  unfold digit. cbn [String.append]. reflexivity.
Qed.

Lemma iso_date_length d : calendar_date d -> String.length (iso_date d) = 10%nat.
Proof. intros _. reflexivity. Qed.





(** ** Conversion *)










(** *** Exact decimal products *)






(** ** The currency directory *)

Import CurrencyCodes.

Lemma next_item_find data key value :
  Forall (fun item => dict_lookup item key <> None) data ->
  next_item data key value
  = Return (match first_match data key value with
            | Some item => PDict item
            | None => PNone
            end).
Proof.
  unfold first_match.
  induction 1 as [| item rest Hitem _ IH]; [reflexivity|].
  cbn [next_item find]. unfold py_subscript, field_is.
  destruct (dict_lookup item key) as [v |]; [|contradiction].
  cbn [bind Monad_result].
  destruct (py_eq_str v value); [reflexivity | exact IH].
Qed.

Lemma first_match_has_field data key value item :
  first_match data key value = Some item -> dict_lookup item key <> None.
Proof.
  unfold first_match. intros H. apply find_some in H. destruct H as [_ H].
  unfold field_is in H. destruct (dict_lookup item key); [discriminate|].
  discriminate.
Qed.

(** What a lookup returns once the record is searched by [key] and the
    field [field] is read. *)
Lemma lookup_field data key value field :
  Forall (fun item => dict_lookup item key <> None) data ->
  (currency_dict <- next_item data key value ;;
   if py_bool currency_dict then py_get currency_dict field PNone
   else Return PNone)
  = Return (field_or_None (first_match data key value) field).
Proof.
  intros Hdata. rewrite (next_item_find _ _ _ Hdata). cbn [bind Monad_result].
  destruct (first_match data key value) as [item |] eqn:E; [|reflexivity].
  apply first_match_has_field in E.
  destruct item as [| kv item]; [contradiction|]. reflexivity.
Qed.

Section Directory.

(** The data file, the directory object, and the format of the file: each
    record of the table in use has the three fields. *)
Variable raw_data : table.
Variable self : CurrencyCodes.t.
Hypothesis records : Forall currency_record (loaded_table raw_data self).

Lemma records_have_cc :
  Forall (fun item => dict_lookup item "cc" <> None) (loaded_table raw_data self).
Proof. eapply Forall_impl; [|exact records]. intros item H. apply H. Qed.

Lemma records_have_symbol :
  Forall (fun item => dict_lookup item "symbol" <> None)
    (loaded_table raw_data self).
Proof. eapply Forall_impl; [|exact records]. intros item H. apply H. Qed.

(** C9. [get_symbol], [get_currency_name] and
    [get_currency_code_from_symbol] scan the loaded table from its first
    record and return the requested field of the first record whose key
    field ([cc], [cc], [symbol]) equals the argument; when no record
    matches they return [None] and raise nothing. *)
Theorem directory_lookups_return_the_first_match (currency_code symbol : string) :
  snd (get_symbol raw_data self currency_code)
  = Return (field_or_None
              (first_match (loaded_table raw_data self) "cc" currency_code)
              "symbol")
  /\
  snd (get_currency_name raw_data self currency_code)
  = Return (field_or_None
              (first_match (loaded_table raw_data self) "cc" currency_code)
              "name")
  /\
  snd (get_currency_code_from_symbol raw_data self symbol)
  = Return (field_or_None
              (first_match (loaded_table raw_data self) "symbol" symbol)
              "cc").
Proof.
  pose proof records_have_cc as Hcc.
  pose proof records_have_symbol as Hsymbol.
  unfold get_symbol, get_currency_name, get_currency_code_from_symbol,
    _get_data, _get_data_from_symbol, loaded_table in *.
  destruct (_currency_data raw_data self) as [self' data]. cbn [snd] in *.
  repeat split; apply lookup_field; assumption.
Qed.

(** A lookup leaves the table loaded. *)
Lemma get_symbol_keeps_the_table currency_code :
  __currency_data (fst (get_symbol raw_data self currency_code))
  = Some (loaded_table raw_data self).
Proof.
  unfold get_symbol, _get_data, loaded_table, _currency_data.
  destruct (__currency_data self) as [data |] eqn:E; cbn; [exact E | reflexivity].
Qed.

End Directory.

Lemma directory_lookups_return_the_first_match_witness :
  snd (get_symbol [usd_record] CurrencyCodes.__init__ "USD") = Return (PStr "$")
  /\
  snd (get_symbol [usd_record] CurrencyCodes.__init__ "ZZZ") = Return PNone.
Proof.
  assert (Hrecords : Forall currency_record
                       (loaded_table [usd_record] CurrencyCodes.__init__)).
  { repeat constructor; discriminate. }
  split.
  - exact (proj1 (directory_lookups_return_the_first_match
                    [usd_record] CurrencyCodes.__init__ Hrecords "USD" "$")).
  - exact (proj1 (directory_lookups_return_the_first_match
                    [usd_record] CurrencyCodes.__init__ Hrecords "ZZZ" "$")).
Defined.

(** ** Which call raises what *)

Lemma _decode_rates_raises self response use_decimal date_str e :
  _decode_rates self response use_decimal date_str = Raise e ->
  e = JSONDecodeError \/ e = AttributeError.
Proof.
  unfold _decode_rates, response_json, json_loads.
  destruct (text response) as [j |];
    destruct (_force_decimal self || use_decimal); cbn [bind Monad_result];
    try (intros H; injection H as <-; left; reflexivity);
    unfold py_get; destruct (decode _ j);
    intros H; inversion H; right; reflexivity.
Qed.

Lemma _get_decoded_rate_raises self response dest_cur use_decimal date_str e :
  _get_decoded_rate self response dest_cur use_decimal date_str = Raise e ->
  e = JSONDecodeError \/ e = AttributeError.
Proof.
  unfold _get_decoded_rate.
  destruct (_decode_rates self response use_decimal date_str) as [rates | e']
    eqn:E; cbn [bind Monad_result].
  - unfold py_get. destruct rates; intros H; inversion H; right; reflexivity.
  - intros H. injection H as <-. exact (_decode_rates_raises _ _ _ _ _ E).
Qed.

(** Every way [get_rates] can fail. *)
Lemma get_rates_raises self transport base_cur date_obj e :
  outcome_of (get_rates self base_cur date_obj) transport = Raise e ->
  e = source_not_ready \/ e = JSONDecodeError \/ e = AttributeError
  \/ exists detail, e = TransportError detail.
Proof.
  unfold outcome_of. rewrite get_rates_run. cbn [snd]. unfold after_fetch.
  destruct (transport _) as [response | detail].
  - destruct (status_code response =? 200).
    + intros H. apply _decode_rates_raises in H. tauto.
    + intros H. injection H as <-. left. reflexivity.
  - intros H. injection H as <-. do 3 right. exists detail. reflexivity.
Qed.

(** Every way [get_rate] can fail. *)
Lemma get_rate_raises self transport base_cur dest_cur date_obj e :
  outcome_of (get_rate self base_cur dest_cur date_obj) transport = Raise e ->
  e = source_not_ready
  \/ e = rate_not_available self base_cur dest_cur date_obj
  \/ e = JSONDecodeError \/ e = AttributeError
  \/ exists detail, e = TransportError detail.
Proof.
  unfold outcome_of.
  destruct (String.eqb_spec base_cur dest_cur) as [-> | Hne].
  - rewrite get_rate_run_same. discriminate.
  - rewrite (get_rate_run_fetch _ _ _ _ _ Hne). cbn [snd].
    unfold after_fetch, rate_of_response.
    destruct (transport _) as [response | detail].
    + destruct (status_code response =? 200).
      * destruct (_get_decoded_rate _ _ _ _ _) as [rate | e'] eqn:E.
        -- destruct (py_bool rate); [discriminate|].
           intros H. injection H as <-. right. left. reflexivity.
        -- intros H. injection H as <-.
           apply _get_decoded_rate_raises in E. tauto.
      * intros H. injection H as <-. left. reflexivity.
    + intros H. injection H as <-. do 4 right. exists detail. reflexivity.
Qed.

Lemma next_item_raises data key value e :
  next_item data key value = Raise e -> e = KeyError.
Proof.
  induction data as [| item rest IH]; [discriminate|].
  cbn [next_item]. unfold py_subscript.
  destruct (dict_lookup item key) as [v |]; cbn [bind Monad_result].
  - destruct (py_eq_str v value); [discriminate | exact IH].
  - intros H. injection H as <-. reflexivity.
Qed.

Lemma next_item_returns data key value v :
  next_item data key value = Return v ->
  v = PNone \/ exists item, v = PDict item.
Proof.
  induction data as [| item rest IH].
  - intros H. injection H as <-. left. reflexivity.
  - cbn [next_item]. unfold py_subscript.
    destruct (dict_lookup item key) as [w |]; cbn [bind Monad_result];
      [|discriminate].
    destruct (py_eq_str w value); [|exact IH].
    intros H. injection H as <-. right. exists item. reflexivity.
Qed.

(** A directory lookup fails on a record without the key field only. *)
Lemma lookup_field_raises data key value field e :
  (currency_dict <- next_item data key value ;;
   if py_bool currency_dict then py_get currency_dict field PNone
   else Return PNone)
  = Raise e ->
  e = KeyError.
Proof.
  destruct (next_item data key value) as [currency_dict | e'] eqn:E;
    cbn [bind Monad_result].
  - destruct (next_item_returns _ _ _ _ E) as [-> | [item ->]].
    + discriminate.
    + destruct (py_bool (PDict item)); discriminate.
  - intros H. injection H as <-. exact (next_item_raises _ _ _ _ E).
Qed.

(** C10. [get_rates] and [get_rate] never raise
    [DecimalFloatMismatchError], whatever the arguments and whatever the
    transport answers: of the two exception classes of the module they
    raise [RatesNotAvailableError] only.  The directory lookups do not
    raise it either; [convert] does, so it is the only operation that
    raises it. *)
Theorem only_convert_raises_DecimalFloatMismatchError
  (self : Common.t) (transport : Transport)
  (base_cur dest_cur : string) (date_obj : option date)
  (raw_data : table) (codes : CurrencyCodes.t) (key : string) :
  (forall e,
     outcome_of (get_rates self base_cur date_obj) transport = Raise e
     \/ outcome_of (get_rate self base_cur dest_cur date_obj) transport = Raise e ->
     (forall msg, e <> DecimalFloatMismatchError msg)
     /\ (domain_error e = true -> exists msg, e = RatesNotAvailableError msg))
  /\
  (forall e,
     snd (get_symbol raw_data codes key) = Raise e
     \/ snd (get_currency_name raw_data codes key) = Raise e
     \/ snd (get_currency_code_from_symbol raw_data codes key) = Raise e ->
     forall msg, e <> DecimalFloatMismatchError msg)
  /\
  (exists msg,
     outcome_of (convert (Common.__init__ true) "USD" "EUR" (NFloat 10) None)
       (always (ok eur_085))
     = Raise (DecimalFloatMismatchError msg)).
Proof.
  split; [|split].
  - intros e [H | H].
    + apply get_rates_raises in H.
      destruct H as [-> | [-> | [-> | [detail ->]]]];
        (split; [discriminate | try discriminate]).
      intros _. eexists. reflexivity.
    + apply get_rate_raises in H.
      destruct H as [-> | [-> | [-> | [-> | [detail ->]]]]];
        (split; [discriminate | try discriminate]);
        intros _; eexists; reflexivity.
  - intros e H msg.
    assert (He : e = KeyError).
    { unfold get_symbol, get_currency_name, get_currency_code_from_symbol,
        _get_data, _get_data_from_symbol in H.
      destruct (_currency_data raw_data codes) as [codes' data]. cbn [snd] in H.
      destruct H as [H | [H | H]]; exact (lookup_field_raises _ _ _ _ _ H). }
    rewrite He. discriminate.
  - eexists. reflexivity.
Qed.

(** ** Worked examples *)

(** [float("0.85")] is the double nearest to 0.85. *)
Example float_of_literal_085 :
  float_of_literal false 85 (-2) = 0x1.b333333333333p-1%float.
Proof. vm_compute. reflexivity. Qed.

(** [float(2**53 + 1)] rounds to even. *)
Example float_of_int_rounds :
  float_of_int (2 ^ 53 + 1) = Return 0x1p+53%float.
Proof. vm_compute. reflexivity. Qed.

(** [Decimal(0.1)] writes out the double nearest to 0.1. *)
Example dec_of_float_tenth :
  dec_of_float 0x1.999999999999ap-4
  = DFinite false 1000000000000000055511151231257827021181583404541015625 (-55).
Proof. vm_compute. reflexivity. Qed.

(** A product of 39 digits is rounded to the 28 of the context. *)
Example dec_mul_rounds :
  dec_mul (DFinite false 12345678901234567890 (-2))
          (DFinite false 12345678901234567890 0)
  = Return (DFinite false 1524157875323883675019051999 9).
Proof. vm_compute. reflexivity. Qed.

(** [get_rate("USD", "EUR", date(2021, 1, 5))] with decimals forced. *)
Example get_rate_dated :
  run (get_rate (Common.__init__ true) "USD" "EUR"
         (Some {| year := 2021; month := 1; day := 5 |}))
      (always (ok eur_085))
  = ([{| url := "https://theforexapi.com/api/2021-01-05";
         params := [("base", "USD"); ("symbols", "EUR"); ("rtype", "fpy")];
         timeout := 60 |}],
     Return (PNum (NDecimal (DFinite false 85 (-2))))).
Proof. vm_compute. reflexivity. Qed.

(** [convert("USD", "EUR", 10.0)] in float arithmetic. *)
Example convert_float :
  outcome_of (convert _CURRENCY_FORMATTER "USD" "EUR" (NFloat 10) None)
    (always (ok eur_085))
  = Return (PNum (NFloat 8.5)).
Proof. vm_compute. reflexivity. Qed.

(** A repeated member of a JSON object keeps its last value. *)
Example decode_repeated_member :
  decode false (JObject [("EUR", JInt 1); ("USD", JInt 2); ("EUR", JInt 3)])
  = PDict [("EUR", PNum (NInt 3)); ("USD", PNum (NInt 2))].
Proof. reflexivity. Qed.

(** The second lookup reuses the table the first one loaded. *)
Example directory_loads_once :
  let '(codes, _) := get_symbol [usd_record] CurrencyCodes.__init__ "USD" in
  get_currency_name [] codes "USD" = (codes, Return (PStr "US Dollar")).
Proof. reflexivity. Qed.

(* ================================================================= *)
(** * Further properties of the rate client *)

(** ** One request, whatever comes back *)

(** X1. A rate operation never retries and never issues a second
    request: the requests of a call do not depend on what the transport
    answers, [get_rates] issues exactly one, [get_rate] and [convert] at
    most one. *)
Theorem one_request_whatever_the_answer
  (self : Common.t) (base_cur dest_cur : string) (amount : number)
  (date_obj : option date) (transport transport' : Transport) :
  (requests_of (get_rates self base_cur date_obj) transport
   = requests_of (get_rates self base_cur date_obj) transport'
   /\ List.length (requests_of (get_rates self base_cur date_obj) transport) = 1%nat)
  /\
  (requests_of (get_rate self base_cur dest_cur date_obj) transport
   = requests_of (get_rate self base_cur dest_cur date_obj) transport'
   /\ (List.length (requests_of (get_rate self base_cur dest_cur date_obj) transport)
       <= 1)%nat)
  /\
  (requests_of (convert self base_cur dest_cur amount date_obj) transport
   = requests_of (convert self base_cur dest_cur amount date_obj) transport'
   /\ (List.length
         (requests_of (convert self base_cur dest_cur amount date_obj) transport)
       <= 1)%nat).
Proof.
  unfold requests_of. repeat split.
  - rewrite !get_rates_run. reflexivity.
  - rewrite get_rates_run. reflexivity.
  - destruct (String.eqb_spec base_cur dest_cur) as [-> | Hne].
    + rewrite !get_rate_run_same. reflexivity.
    + rewrite !(get_rate_run_fetch _ _ _ _ _ Hne). reflexivity.
  - destruct (String.eqb_spec base_cur dest_cur) as [-> | Hne].
    + rewrite get_rate_run_same. cbn. lia.
    + rewrite (get_rate_run_fetch _ _ _ _ _ Hne). cbn. lia.
  - destruct (String.eqb_spec base_cur dest_cur) as [-> | Hne].
    + rewrite !convert_run_same. reflexivity.
    + rewrite !(convert_run_fetch _ _ _ _ _ _ Hne). reflexivity.
  - destruct (String.eqb_spec base_cur dest_cur) as [-> | Hne].
    + rewrite convert_run_same. cbn. lia.
    + rewrite (convert_run_fetch _ _ _ _ _ _ Hne). cbn. lia.
Qed.

(** ** Failures that are not [RatesNotAvailableError] *)

(** X2. A failure of the transport itself is not caught and not turned
    into [RatesNotAvailableError]: each operation that fetches ends with
    the transport's own exception. *)
Theorem transport_failure_passes_through
  (self : Common.t) (transport : Transport)
  (base_cur dest_cur : string) (amount : number) (date_obj : option date)
  (detail : string) :
  base_cur <> dest_cur ->
  (forall dest, transport (issued_request self base_cur dest date_obj)
                = Failed detail) ->
  outcome_of (get_rates self base_cur date_obj) transport
  = Raise (TransportError detail)
  /\
  outcome_of (get_rate self base_cur dest_cur date_obj) transport
  = Raise (TransportError detail)
  /\
  outcome_of (convert self base_cur dest_cur amount date_obj) transport
  = Raise (TransportError detail).
Proof.
  intros Hne Hfail. unfold outcome_of.
  rewrite get_rates_run, (get_rate_run_fetch _ _ _ _ _ Hne),
    (convert_run_fetch _ _ _ _ _ _ Hne).
  cbn [snd]. unfold after_fetch. rewrite !Hfail. repeat split.
Qed.

Lemma transport_failure_passes_through_witness :
  outcome_of (get_rates _CURRENCY_FORMATTER "USD" None) (failing "timed out")
  = Raise (TransportError "timed out")
  /\
  outcome_of (get_rate _CURRENCY_FORMATTER "USD" "EUR" None) (failing "timed out")
  = Raise (TransportError "timed out")
  /\
  outcome_of (convert _CURRENCY_FORMATTER "USD" "EUR" (NFloat 10) None)
    (failing "timed out")
  = Raise (TransportError "timed out").
Proof.
  assert (Hne : "USD" <> "EUR") by discriminate.
  exact (transport_failure_passes_through
           _CURRENCY_FORMATTER (failing "timed out") "USD" "EUR" (NFloat 10) None
           "timed out" Hne (fun _ => eq_refl)).
Defined.

Lemma py_get_no_object use_decimal j key default :
  json_is_object j = false ->
  py_get (decode use_decimal j) key default = Raise AttributeError.
Proof.
  destruct j; try discriminate; intros _; try reflexivity.
  cbn [decode]. destruct use_decimal; reflexivity.
Qed.

Lemma _decode_rates_no_object self response use_decimal date_str :
  match text response with
  | None =>
      _decode_rates self response use_decimal date_str = Raise JSONDecodeError
  | Some j =>
      json_is_object j = false ->
      _decode_rates self response use_decimal date_str = Raise AttributeError
  end.
Proof.
  unfold _decode_rates, response_json, json_loads.
  destruct (text response) as [j |].
  - intros Hj.
    destruct (_force_decimal self || use_decimal); cbn [bind Monad_result];
      apply py_get_no_object; exact Hj.
  - destruct (_force_decimal self || use_decimal); reflexivity.
Qed.

(** X3. A status-200 answer whose body is not a JSON object does not end
    in [RatesNotAvailableError]: the three operations raise
    [JSONDecodeError] when the body is not JSON, and [AttributeError] when
    it is JSON of another shape (an array, a string, a number, [null]). *)
Theorem body_that_is_no_object
  (self : Common.t) (transport : Transport)
  (base_cur dest_cur : string) (amount : number) (date_obj : option date)
  (response : Response) :
  base_cur <> dest_cur ->
  (forall dest, transport (issued_request self base_cur dest date_obj)
                = Answered response) ->
  status_code response = 200 ->
  (text response = None ->
   outcome_of (get_rates self base_cur date_obj) transport = Raise JSONDecodeError
   /\ outcome_of (get_rate self base_cur dest_cur date_obj) transport
      = Raise JSONDecodeError
   /\ outcome_of (convert self base_cur dest_cur amount date_obj) transport
      = Raise JSONDecodeError)
  /\
  (forall j, text response = Some j -> json_is_object j = false ->
   outcome_of (get_rates self base_cur date_obj) transport = Raise AttributeError
   /\ outcome_of (get_rate self base_cur dest_cur date_obj) transport
      = Raise AttributeError
   /\ outcome_of (convert self base_cur dest_cur amount date_obj) transport
      = Raise AttributeError).
Proof.
  intros Hne Hanswer Hstatus. unfold outcome_of.
  rewrite get_rates_run, (get_rate_run_fetch _ _ _ _ _ Hne),
    (convert_run_fetch _ _ _ _ _ _ Hne).
  cbn [snd]. unfold after_fetch, rate_of_response, conversion_of_response,
    _get_decoded_rate.
  rewrite !Hanswer, Hstatus, Z.eqb_refl.
  split.
  - intros Htext.
    assert (H : forall u ds, _decode_rates self response u ds = Raise JSONDecodeError).
    { intros u ds. pose proof (_decode_rates_no_object self response u ds) as H.
      rewrite Htext in H. exact H. }
    rewrite !H. repeat split.
  - intros j Htext Hj.
    assert (H : forall u ds, _decode_rates self response u ds = Raise AttributeError).
    { intros u ds. pose proof (_decode_rates_no_object self response u ds) as H.
      rewrite Htext in H. exact (H Hj). }
    rewrite !H. repeat split.
Qed.

Lemma body_that_is_no_object_witness :
  outcome_of (get_rate _CURRENCY_FORMATTER "USD" "EUR" None)
    (always {| status_code := 200; text := None |})
  = Raise JSONDecodeError
  /\
  outcome_of (get_rate _CURRENCY_FORMATTER "USD" "EUR" None)
    (always (ok (JArray [])))
  = Raise AttributeError.
Proof.
  assert (Hne : "USD" <> "EUR") by discriminate.
  split.
  - exact (proj1 (proj2
             (proj1 (body_that_is_no_object
                       _CURRENCY_FORMATTER
                       (always {| status_code := 200; text := None |})
                       "USD" "EUR" (NFloat 10) None
                       {| status_code := 200; text := None |}
                       Hne (fun _ => eq_refl) eq_refl)
                    eq_refl))).
  - exact (proj1 (proj2
             (proj2 (body_that_is_no_object
                       _CURRENCY_FORMATTER (always (ok (JArray [])))
                       "USD" "EUR" (NFloat 10) None (ok (JArray []))
                       Hne (fun _ => eq_refl) eq_refl)
                    (JArray []) eq_refl eq_refl))).
Defined.

(** X4. When the [rates] member of the body is not an object,
    [get_rates] still returns it as decoded, while [get_rate] and
    [convert], which look the destination up in it, raise
    [AttributeError]. *)
Theorem rates_member_that_is_no_object
  (self : Common.t) (transport : Transport)
  (base_cur dest_cur : string) (amount : number) (date_obj : option date)
  (response : Response) (members : list (string * json)) (rates : json) :
  base_cur <> dest_cur ->
  (forall dest, transport (issued_request self base_cur dest date_obj)
                = Answered response) ->
  status_code response = 200 ->
  text response = Some (JObject members) ->
  json_member members "rates" = Some rates ->
  json_is_object rates = false ->
  outcome_of (get_rates self base_cur date_obj) transport
  = Return (decode (_force_decimal self) rates)
  /\
  outcome_of (get_rate self base_cur dest_cur date_obj) transport
  = Raise AttributeError
  /\
  outcome_of (convert self base_cur dest_cur amount date_obj) transport
  = Raise AttributeError.
Proof.
  intros Hne Hanswer Hstatus Htext Hrates Hshape. unfold outcome_of.
  rewrite get_rates_run, (get_rate_run_fetch _ _ _ _ _ Hne),
    (convert_run_fetch _ _ _ _ _ _ Hne).
  cbn [snd]. unfold after_fetch, rate_of_response, conversion_of_response,
    _get_decoded_rate.
  rewrite !Hanswer, Hstatus, Z.eqb_refl.
  rewrite !(_decode_rates_object _ _ _ _ _ Htext), Hrates, orb_false_r.
  cbn [bind Monad_result].
  rewrite !(py_get_no_object _ _ _ _ Hshape). repeat split.
Qed.

Lemma rates_member_that_is_no_object_witness :
  outcome_of (get_rates _CURRENCY_FORMATTER "USD" None)
    (always (ok (JObject [("rates", JNull)])))
  = Return PNone
  /\
  outcome_of (get_rate _CURRENCY_FORMATTER "USD" "EUR" None)
    (always (ok (JObject [("rates", JNull)])))
  = Raise AttributeError
  /\
  outcome_of (convert _CURRENCY_FORMATTER "USD" "EUR" (NFloat 10) None)
    (always (ok (JObject [("rates", JNull)])))
  = Raise AttributeError.
Proof.
  assert (Hne : "USD" <> "EUR") by discriminate.
  exact (rates_member_that_is_no_object
           _CURRENCY_FORMATTER (always (ok (JObject [("rates", JNull)])))
           "USD" "EUR" (NFloat 10) None (ok (JObject [("rates", JNull)]))
           [("rates", JNull)] JNull
           Hne (fun _ => eq_refl) eq_refl eq_refl eq_refl eq_refl).
Defined.

(** ** Quotes of any JSON type *)

Lemma dict_set_not_empty d k v : dict_set d k v <> [].
Proof.
  destruct d as [| [k0 w] d]; simpl; [discriminate|].
  destruct (String.eqb k0 k); discriminate.
Qed.

Lemma fold_dict_set_not_empty items : forall d,
  d <> [] ->
  fold_left (fun d kv => dict_set d (fst kv) (snd kv)) items d <> [].
Proof.
  induction items as [| [k v] items IH]; intros d Hd; simpl; [exact Hd|].
  apply IH, dict_set_not_empty.
Qed.

Lemma dict_of_items_not_empty kv items : dict_of_items (kv :: items) <> [].
Proof.
  unfold dict_of_items. cbn [fold_left].
  apply fold_dict_set_not_empty, dict_set_not_empty.
Qed.

(** The truth test on a decoded value, read on the JSON text. *)
Lemma py_bool_decode use_decimal j :
  py_bool (decode use_decimal j) = negb (json_falsy use_decimal j).
Proof.
  destruct j as [| b | n | s c e | s | l | m]; try reflexivity.
  - destruct b; reflexivity.
  - cbn [decode json_falsy]. destruct use_decimal; reflexivity.
  - destruct l; reflexivity.
  - rewrite decode_JObject. cbn [py_bool json_falsy].
    destruct m as [| kv m]; [reflexivity|].
    cbn [map].
    destruct (dict_of_items _) eqn:E; [|reflexivity].
    apply dict_of_items_not_empty in E. destruct E.
Qed.

(** The decoded rate is the decoded quote, whatever its JSON type. *)
Lemma _get_decoded_rate_quoted
  self response dest_cur use_decimal date_str body j :
  text response = Some body ->
  quoted_rate body dest_cur = Some j ->
  _get_decoded_rate self response dest_cur use_decimal date_str
  = Return (decode (_force_decimal self || use_decimal) j).
Proof.
  intros Htext Hquote.
  destruct body as [| | | | | | members]; try discriminate.
  cbn [quoted_rate] in Hquote.
  destruct (json_member members "rates") as [[| | | | | | rates] |] eqn:Hrates;
    try discriminate.
  unfold _get_decoded_rate.
  rewrite (_decode_rates_object _ _ _ _ _ Htext), Hrates.
  cbn [bind Monad_result]. rewrite py_get_decoded_object, Hquote. reflexivity.
Qed.

(** X5. [get_rate] does not check that the quote is a number.  It
    treats as unavailable exactly the quotes [null], [false], a zero, the
    empty string, the empty array and the empty object; any other quoted
    value, a string or an array included, is returned as it is decoded.
    [convert] rejects the same quotes, read in its own representation. *)
Theorem get_rate_returns_any_truthy_quote
  (self : Common.t) (transport : Transport)
  (base_cur dest_cur : string) (amount : number) (date_obj : option date)
  (response : Response) (body j : json) :
  base_cur <> dest_cur ->
  transport (issued_request self base_cur (Some dest_cur) date_obj)
  = Answered response ->
  status_code response = 200 ->
  text response = Some body ->
  quoted_rate body dest_cur = Some j ->
  outcome_of (get_rate self base_cur dest_cur date_obj) transport
  = (if json_falsy (_force_decimal self) j
     then Raise (rate_not_available self base_cur dest_cur date_obj)
     else Return (decode (_force_decimal self) j))
  /\
  (json_falsy (isinstance_Decimal amount || _force_decimal self) j = true ->
   outcome_of (convert self base_cur dest_cur amount date_obj) transport
   = Raise (conversion_rate_not_available self dest_cur date_obj)).
Proof.
  intros Hne Hanswer Hstatus Htext Hquote. unfold outcome_of.
  rewrite (get_rate_run_fetch _ _ _ _ _ Hne), (convert_run_fetch _ _ _ _ _ _ Hne).
  cbn [snd]. unfold after_fetch, rate_of_response, conversion_of_response.
  rewrite Hanswer, Hstatus, Z.eqb_refl.
  rewrite !(_get_decoded_rate_quoted _ _ _ _ _ _ _ Htext Hquote).
  rewrite !py_bool_decode, orb_false_r.
  replace (_force_decimal self || (isinstance_Decimal amount || _force_decimal self))
    with (isinstance_Decimal amount || _force_decimal self)
    by (destruct (isinstance_Decimal amount), (_force_decimal self); reflexivity).
  split.
  - destruct (json_falsy (_force_decimal self) j); reflexivity.
  - intros ->. reflexivity.
Qed.

Lemma get_rate_returns_any_truthy_quote_witness :
  outcome_of (get_rate _CURRENCY_FORMATTER "USD" "EUR" None)
    (always (ok (JObject [("rates", JObject [("EUR", JString "n/a")])])))
  = Return (PStr "n/a").
Proof.
  assert (Hne : "USD" <> "EUR") by discriminate.
  exact (proj1 (get_rate_returns_any_truthy_quote
                  _CURRENCY_FORMATTER
                  (always (ok (JObject [("rates", JObject [("EUR", JString "n/a")])])))
                  "USD" "EUR" (NFloat 10) None
                  (ok (JObject [("rates", JObject [("EUR", JString "n/a")])]))
                  (JObject [("rates", JObject [("EUR", JString "n/a")])])
                  (JString "n/a")
                  Hne eq_refl eq_refl eq_refl eq_refl)).
Defined.




(** ** How the operations compose *)

(** X7. On a transport that answers both requests alike, [get_rate] is
    [get_rates] followed by the lookup of the destination and the truth
    test: it returns the destination's entry of the mapping [get_rates]
    returns when that entry is truthy, raises [RatesNotAvailableError]
    when the entry is missing or falsy, and fails as [get_rates] or the
    lookup fails. *)
Theorem get_rate_is_a_lookup_in_get_rates
  (self : Common.t) (transport : Transport)
  (base_cur dest_cur : string) (date_obj : option date) :
  base_cur <> dest_cur ->
  transport (issued_request self base_cur (Some dest_cur) date_obj)
  = transport (issued_request self base_cur None date_obj) ->
  outcome_of (get_rate self base_cur dest_cur date_obj) transport
  = match outcome_of (get_rates self base_cur date_obj) transport with
    | Return rates =>
        match py_get rates dest_cur PNone with
        | Return rate =>
            if py_bool rate then Return rate
            else Raise (rate_not_available self base_cur dest_cur date_obj)
        | Raise e => Raise e
        end
    | Raise e => Raise e
    end.
Proof.
  intros Hne Hsame. unfold outcome_of.
  rewrite get_rates_run, (get_rate_run_fetch _ _ _ _ _ Hne).
  cbn [snd]. unfold after_fetch, rate_of_response, _get_decoded_rate.
  rewrite Hsame. clear Hsame.
  destruct (transport _) as [response | detail]; [|reflexivity].
  destruct (status_code response =? 200); [|reflexivity].
  destruct (_decode_rates _ _ _ _) as [rates | e]; reflexivity.
Qed.

Lemma get_rate_is_a_lookup_in_get_rates_witness :
  outcome_of (get_rate _CURRENCY_FORMATTER "USD" "EUR" None) (always (ok eur_085))
  = match outcome_of (get_rates _CURRENCY_FORMATTER "USD" None)
            (always (ok eur_085)) with
    | Return rates =>
        match py_get rates "EUR" PNone with
        | Return rate =>
            if py_bool rate then Return rate
            else Raise (rate_not_available _CURRENCY_FORMATTER "USD" "EUR" None)
        | Raise e => Raise e
        end
    | Raise e => Raise e
    end.
Proof.
  assert (Hne : "USD" <> "EUR") by discriminate.
  exact (get_rate_is_a_lookup_in_get_rates
           _CURRENCY_FORMATTER (always (ok eur_085)) "USD" "EUR" None
           Hne eq_refl).
Defined.






(** ** Representations *)

Lemma all_numbers_lookup P d key v :
  all_numbers P (PDict d) = true ->
  dict_lookup d key = Some v ->
  all_numbers P v = true.
Proof.
  induction d as [| [k w] d IH]; [discriminate|].
  cbn [all_numbers dict_lookup]. intros H Hlookup.
  apply andb_prop in H. destruct H as [Hw Hd].
  destruct (String.eqb k key).
  - injection Hlookup as <-. exact Hw.
  - exact (IH Hd Hlookup).
Qed.

Lemma all_numbers_set P d key v :
  all_numbers P (PDict d) = true ->
  all_numbers P v = true ->
  all_numbers P (PDict (dict_set d key v)) = true.
Proof.
  intros Hd Hv. induction d as [| [k w] d IH]; cbn [dict_set].
  - cbn [all_numbers]. rewrite Hv. reflexivity.
  - cbn [all_numbers] in Hd. apply andb_prop in Hd. destruct Hd as [Hw Hd].
    destruct (String.eqb k key); cbn [all_numbers].
    + rewrite Hv. exact Hd.
    + rewrite Hw. exact (IH Hd).
Qed.

Lemma all_numbers_of_items P items :
  Forall (fun kv => all_numbers P (snd kv) = true) items ->
  all_numbers P (PDict (dict_of_items items)) = true.
Proof.
  unfold dict_of_items.
  assert (H : forall d, all_numbers P (PDict d) = true ->
                        Forall (fun kv => all_numbers P (snd kv) = true) items ->
                        all_numbers P
                          (PDict (fold_left (fun d kv => dict_set d (fst kv) (snd kv))
                                    items d)) = true).
  { induction items as [| [k v] items IH]; intros d Hd Hitems; cbn [fold_left].
    - exact Hd.
    - inversion Hitems as [| ? ? Hv Hrest]; subst.
      apply IH; [apply all_numbers_set; assumption | exact Hrest]. }
  apply H. reflexivity.
Qed.

(** A decoded document holds numbers of the kinds the decoder makes. *)
Lemma all_numbers_decode (P : number -> bool) (use_decimal : bool) :
  (forall n, P (NInt n) = true) ->
  (forall s c e,
     P (if use_decimal then NDecimal (DFinite s c e)
        else NFloat (float_of_literal s c e)) = true) ->
  forall j, all_numbers P (decode use_decimal j) = true.
Proof.
  intros Hint Hreal.
  assert (Hreal' : forall s c e, all_numbers P (decode use_decimal (JReal s c e)) = true).
  { intros s c e. generalize (Hreal s c e).
    destruct use_decimal; exact (fun H => H). }
  clear Hreal.
  refine (fix IH (j : json) : all_numbers P (decode use_decimal j) = true := _).
  destruct j as [| b | n | s c e | s | elements | members].
  - reflexivity.
  - reflexivity.
  - apply Hint.
  - apply Hreal'.
  - reflexivity.
  - cbn [decode all_numbers].
    refine ((fix IHl (l : list json)
               : forallb (all_numbers P) (map (decode use_decimal) l) = true :=
               match l with
               | [] => eq_refl
               | j :: l' => _
               end) elements).
    cbn [map forallb]. rewrite (IH j), (IHl l'). reflexivity.
  - rewrite decode_JObject. apply all_numbers_of_items.
    refine ((fix IHm (m : list (string * json))
               : Forall (fun kv => all_numbers P (snd kv) = true)
                   (map (fun kv => (fst kv, decode use_decimal (snd kv))) m) :=
               _) members).
    destruct m as [| [k j] m']; cbn [map fst snd].
    + constructor.
    + constructor; [exact (IH j) | exact (IHm m')].
Qed.

Lemma decode_float_free j : float_free (decode true j) = true.
Proof. apply all_numbers_decode; reflexivity. Qed.

Lemma decode_decimal_free j : decimal_free (decode false j) = true.
Proof. apply all_numbers_decode; reflexivity. Qed.

Lemma all_numbers_py_get P obj key default v :
  all_numbers P obj = true ->
  all_numbers P default = true ->
  py_get obj key default = Return v ->
  all_numbers P v = true.
Proof.
  intros Hobj Hdefault. destruct obj; try discriminate.
  cbn [py_get]. intros H. injection H as <-.
  destruct (dict_lookup items key) as [w |] eqn:E; [|exact Hdefault].
  exact (all_numbers_lookup _ _ _ _ Hobj E).
Qed.

(** What [_decode_rates] returns holds no [float] in decimal mode and no
    [Decimal] otherwise. *)
Lemma _decode_rates_representation self response use_decimal date_str v :
  _decode_rates self response use_decimal date_str = Return v ->
  if _force_decimal self || use_decimal
  then float_free v = true
  else decimal_free v = true.
Proof.
  unfold _decode_rates, response_json, json_loads.
  destruct (text response) as [j |];
    destruct (_force_decimal self || use_decimal); cbn [bind Monad_result];
    try discriminate; intros H.
  - exact (all_numbers_py_get _ _ _ (PDict []) _ (decode_float_free j) eq_refl H).
  - exact (all_numbers_py_get _ _ _ (PDict []) _ (decode_decimal_free j) eq_refl H).
Qed.

(** X9. A client that forces decimals never hands out a [float]: what
    [get_rates] and [get_rate] return holds no [float] at any depth.  A
    client that does not force them never hands out a [Decimal] from these
    two operations. *)
Theorem rates_come_in_one_representation
  (self : Common.t) (transport : Transport)
  (base_cur dest_cur : string) (date_obj : option date) (v : pyval) :
  outcome_of (get_rates self base_cur date_obj) transport = Return v
  \/ outcome_of (get_rate self base_cur dest_cur date_obj) transport = Return v ->
  if _force_decimal self then float_free v = true else decimal_free v = true.
Proof.
  unfold outcome_of. intros [H | H].
  - rewrite get_rates_run in H. cbn [snd] in H. unfold after_fetch in H.
    destruct (transport _) as [response | detail]; [|discriminate].
    destruct (status_code response =? 200); [|discriminate].
    apply _decode_rates_representation in H. rewrite orb_false_r in H. exact H.
  - destruct (String.eqb_spec base_cur dest_cur) as [-> | Hne].
    + rewrite get_rate_run_same in H. injection H as <-.
      destruct (_force_decimal self); reflexivity.
    + rewrite (get_rate_run_fetch _ _ _ _ _ Hne) in H. cbn [snd] in H.
      unfold after_fetch, rate_of_response, _get_decoded_rate in H.
      destruct (transport _) as [response | detail]; [|discriminate].
      destruct (status_code response =? 200); [|discriminate].
      destruct (_decode_rates _ _ _ _) as [rates | e] eqn:E;
        cbn [bind Monad_result] in H; [|discriminate].
      apply _decode_rates_representation in E. rewrite orb_false_r in E.
      destruct (py_get rates dest_cur PNone) as [rate | e] eqn:Eget;
        [|discriminate].
      destruct (py_bool rate); [|discriminate]. injection H as <-.
      destruct (_force_decimal self);
        exact (all_numbers_py_get _ _ _ PNone _ E eq_refl Eget).
Qed.

Lemma rates_come_in_one_representation_witness :
  outcome_of (get_rates (Common.__init__ true) "USD" None) (always (ok eur_085))
  = Return (PDict [("EUR", PNum (NDecimal (DFinite false 85 (-2))))])
  /\
  float_free (PDict [("EUR", PNum (NDecimal (DFinite false 85 (-2))))]) = true.
Proof.
  split; [reflexivity|].
  exact (rates_come_in_one_representation
           (Common.__init__ true) (always (ok eur_085)) "USD" "EUR" None
           (PDict [("EUR", PNum (NDecimal (DFinite false 85 (-2))))])
           (or_introl eq_refl)).
Defined.

Lemma py_mul_Decimal_returns rate d v :
  py_mul rate (NDecimal d) = Return v -> exists d', v = PNum (NDecimal d').
Proof.
  destruct rate as [| b | [a | f | d0] | s | l | items]; cbn [py_mul num_mul];
    try discriminate;
    match goal with
    | |- context [dec_mul ?x ?y] => destruct (dec_mul x y) as [d' |]
    end;
    try discriminate; intros H; injection H as <-; exists d'; reflexivity.
Qed.

Lemma py_mul_float_returns rate f v :
  py_mul rate (NFloat f) = Return v -> exists f', v = PNum (NFloat f').
Proof.
  destruct rate as [| b | [a | g | d0] | s | l | items]; cbn [py_mul num_mul];
    try discriminate;
    try (intros H; injection H as <-; eexists; reflexivity);
    match goal with
    | |- context [float_of_int ?n] => destruct (float_of_int n) as [f' |]
    end;
    try discriminate; intros H; injection H as <-; eexists; reflexivity.
Qed.

Lemma except_TypeError_returns {A} (m handler : result A) v :
  (forall w, handler <> Return w) ->
  except_TypeError m handler = Return v -> m = Return v.
Proof.
  intros Hhandler. destruct m as [a | []]; cbn; try (intros H; exact H);
    intros H; destruct (Hhandler _ H).
Qed.

(** X10. [convert] answers in the representation of the amount.  Given a
    [Decimal] amount, whatever it returns is a [Decimal], for every
    payload and either setting of the flag; given a [float] amount and
    two different currencies, or a client that does not force decimals,
    whatever it returns is a [float]. *)
Theorem convert_answers_in_the_representation_of_the_amount
  (self : Common.t) (transport : Transport)
  (base_cur dest_cur : string) (amount : number) (date_obj : option date)
  (v : pyval) :
  outcome_of (convert self base_cur dest_cur amount date_obj) transport
  = Return v ->
  (representation_of amount = AsDecimal -> exists d, v = PNum (NDecimal d))
  /\
  (representation_of amount = AsFloat ->
   base_cur <> dest_cur \/ _force_decimal self = false ->
   exists f, v = PNum (NFloat f)).
Proof.
  unfold outcome_of.
  destruct (String.eqb_spec base_cur dest_cur) as [-> | Hne].
  - rewrite convert_run_same. cbn [snd]. intros H. split.
    + destruct amount as [n | f | d]; try discriminate. intros _.
      cbn in H. injection H as <-. exists d. reflexivity.
    + destruct amount as [n | f | d]; try discriminate. intros _ [Hne | Hflag].
      * destruct (Hne eq_refl).
      * rewrite Hflag in H. cbn in H. injection H as <-. exists f. reflexivity.
  - rewrite (convert_run_fetch _ _ _ _ _ _ Hne). cbn [snd].
    unfold after_fetch, conversion_of_response.
    destruct (transport _) as [response | detail]; [|discriminate].
    destruct (status_code response =? 200); [|discriminate].
    destruct (_get_decoded_rate _ _ _ _ _) as [rate | e]; [|discriminate].
    destruct (py_bool rate); [|discriminate].
    intros H. apply except_TypeError_returns in H; [|discriminate].
    split.
    + destruct amount as [n | f | d]; try discriminate. intros _.
      exact (py_mul_Decimal_returns _ _ _ H).
    + destruct amount as [n | f | d]; try discriminate. intros _ _.
      exact (py_mul_float_returns _ _ _ H).
Qed.

Lemma convert_answers_in_the_representation_of_the_amount_witness :
  outcome_of
    (convert _CURRENCY_FORMATTER "USD" "EUR" (NDecimal (DFinite false 10 0)) None)
    (always (ok eur_085))
  = Return (PNum (NDecimal (DFinite false 850 (-2))))
  /\
  exists d, PNum (NDecimal (DFinite false 850 (-2))) = PNum (NDecimal d).
Proof.
  split; [reflexivity|].
  exact (proj1 (convert_answers_in_the_representation_of_the_amount
                  _CURRENCY_FORMATTER (always (ok eur_085)) "USD" "EUR"
                  (NDecimal (DFinite false 10 0)) None
                  (PNum (NDecimal (DFinite false 850 (-2)))) eq_refl)
               eq_refl).
Defined.

(** ** An [int] amount *)

(** X12. Under forced decimals an [int] amount converted to its own
    currency comes back as a [Decimal] of exactly the same value, however
    large the integer; no request is issued. *)
Theorem convert_same_currency_int_is_exact_under_decimals
  (self : Common.t) (transport : Transport) (cur : string) (n : Z)
  (date_obj : option date) :
  _force_decimal self = true ->
  requests_of (convert self cur cur (NInt n) date_obj) transport = []
  /\
  exists d,
    outcome_of (convert self cur cur (NInt n) date_obj) transport
    = Return (PNum (NDecimal d))
    /\ same_value (dec_value d) (Finite (inject_Z n)).
Proof.
  intros Hflag. unfold requests_of, outcome_of.
  rewrite convert_run_same, Hflag. cbn [fst snd isinstance_Decimal orb Decimal_of].
  split; [reflexivity|].
  exists (dec_of_int n). split; [reflexivity | apply dec_of_int_exact].
Qed.

Lemma convert_same_currency_int_is_exact_under_decimals_witness :
  exists d,
    outcome_of (convert (Common.__init__ true) "USD" "USD" (NInt (2 ^ 53 + 1)) None)
      (failing "offline")
    = Return (PNum (NDecimal d))
    /\ same_value (dec_value d) (Finite (inject_Z (2 ^ 53 + 1))).
Proof.
  exact (proj2 (convert_same_currency_int_is_exact_under_decimals
                  (Common.__init__ true) (failing "offline") "USD" (2 ^ 53 + 1)
                  None eq_refl)).
Defined.

(* ================================================================= *)
(** * Further properties of the currency directory *)

(** A lookup, whatever its kind: the table in use is kept, and the scan
    and the truth test give the result. *)
Lemma directory_lookup_run kind raw_data self arg :
  directory_lookup kind raw_data self arg
  = ({| __currency_data := Some (loaded_table raw_data self) |},
     currency_dict <- next_item (loaded_table raw_data self) (key_field kind) arg ;;
     if py_bool currency_dict
     then py_get currency_dict (read_field kind) PNone
     else Return PNone).
Proof.
  destruct kind, self as [[data |]]; reflexivity.
Qed.

(** X13. The data file is read once.  After any lookup the object holds
    the table, and every later lookup, of any of the three kinds, answers
    from that table without looking at the file again and leaves the
    object as it is. *)
Theorem directory_reads_the_file_once
  (first later : lookup_kind) (raw_data raw_data' : table)
  (self : CurrencyCodes.t) (arg arg' : string) :
  __currency_data (fst (directory_lookup first raw_data self arg))
  = Some (loaded_table raw_data self)
  /\
  directory_lookup later raw_data' (fst (directory_lookup first raw_data self arg)) arg'
  = (fst (directory_lookup first raw_data self arg),
     snd (directory_lookup later raw_data self arg')).
Proof.
  rewrite !directory_lookup_run. cbn [fst snd]. split; reflexivity.
Qed.

Lemma directory_lookup_result kind raw_data self arg :
  Forall (fun item => dict_lookup item (key_field kind) <> None)
    (loaded_table raw_data self) ->
  snd (directory_lookup kind raw_data self arg)
  = Return (field_or_None
              (first_match (loaded_table raw_data self) (key_field kind) arg)
              (read_field kind)).
Proof.
  intros Hdata. rewrite directory_lookup_run. cbn [snd].
  apply lookup_field. exact Hdata.
Qed.

Lemma first_match_exists data key value item :
  In item data -> field_is key value item = true ->
  exists item', first_match data key value = Some item'.
Proof.
  intros Hin Hitem. unfold first_match.
  destruct (find (field_is key value) data) as [item' |] eqn:E; [eauto|].
  rewrite (find_none _ _ E _ Hin) in Hitem. discriminate.
Qed.

Lemma field_is_value key value item :
  field_is key value item = true -> dict_lookup item key = Some (PStr value).
Proof.
  unfold field_is. destruct (dict_lookup item key) as [[| | | s | |] |];
    try discriminate.
  cbn [py_eq_str]. intros H. apply String.eqb_eq in H. subst. reflexivity.
Qed.

(** Reading field [k2] of the record found by [k1], then searching by
    what was read, leads back when that value identifies the record. *)
Lemma first_match_round_trip data k1 k2 a b :
  field_or_None (first_match data k1 a) k2 = PStr b ->
  identifies data k2 b ->
  field_or_None (first_match data k2 b) k1 = PStr a.
Proof.
  intros Hread Hunique.
  destruct (first_match data k1 a) as [item |] eqn:E; [|discriminate].
  unfold first_match in E. apply find_some in E. destruct E as [Hin Hitem].
  cbn [field_or_None] in Hread.
  assert (Hb : field_is k2 b item = true).
  { unfold field_is. destruct (dict_lookup item k2) as [v |]; [|discriminate].
    subst v. cbn. apply String.eqb_refl. }
  destruct (first_match_exists _ _ _ _ Hin Hb) as [item' E'].
  rewrite E'. unfold first_match in E'. apply find_some in E'.
  destruct E' as [Hin' Hitem'].
  rewrite (Hunique _ _ Hin' Hin Hitem' Hb).
  cbn [field_or_None]. rewrite (field_is_value _ _ _ Hitem). reflexivity.
Qed.

(** X14. Code and symbol lead back to each other as far as they identify
    a record.  If [get_symbol(code)] is the string [s] and no other record
    has the symbol [s], then [get_currency_code_from_symbol(s)] is [code];
    if [get_currency_code_from_symbol(s)] is the string [code] and no
    other record has that code, then [get_symbol(code)] is [s]. *)
Theorem code_and_symbol_round_trip
  (raw_data : table) (self : CurrencyCodes.t) (code s : string) :
  Forall currency_record (loaded_table raw_data self) ->
  (snd (get_symbol raw_data self code) = Return (PStr s) ->
   identifies (loaded_table raw_data self) "symbol" s ->
   snd (get_currency_code_from_symbol raw_data self s) = Return (PStr code))
  /\
  (snd (get_currency_code_from_symbol raw_data self s) = Return (PStr code) ->
   identifies (loaded_table raw_data self) "cc" code ->
   snd (get_symbol raw_data self code) = Return (PStr s)).
Proof.
  intros Hrecords.
  assert (Hcc : Forall (fun item => dict_lookup item "cc" <> None)
                  (loaded_table raw_data self))
    by (eapply Forall_impl; [|exact Hrecords]; intros item H; apply H).
  assert (Hsymbol : Forall (fun item => dict_lookup item "symbol" <> None)
                      (loaded_table raw_data self))
    by (eapply Forall_impl; [|exact Hrecords]; intros item H; apply H).
  pose proof (directory_lookup_result SymbolOfCode raw_data self code Hcc) as Hs.
  pose proof (directory_lookup_result CodeOfSymbol raw_data self s Hsymbol) as Hc.
  cbn [directory_lookup key_field read_field] in Hs, Hc.
  rewrite Hs, Hc. split; intros H Hunique; injection H as H; f_equal;
    apply first_match_round_trip; assumption.
Qed.

Lemma code_and_symbol_round_trip_witness :
  snd (get_symbol [usd_record; aud_record] CurrencyCodes.__init__ "USD")
  = Return (PStr "$")
  /\
  snd (get_currency_code_from_symbol [usd_record] CurrencyCodes.__init__ "$")
  = Return (PStr "USD").
Proof.
  split.
  - assert (Hrecords : Forall currency_record
                         (loaded_table [usd_record; aud_record] CurrencyCodes.__init__))
      by (repeat constructor; discriminate).
    apply (proj2 (code_and_symbol_round_trip
                    [usd_record; aud_record] CurrencyCodes.__init__ "USD" "$"
                    Hrecords)); [reflexivity|].
    intros item item' [<- | [<- | []]] [<- | [<- | []]] H H';
      try reflexivity; discriminate.
  - assert (Hrecords : Forall currency_record
                         (loaded_table [usd_record] CurrencyCodes.__init__))
      by (repeat constructor; discriminate).
    apply (proj1 (code_and_symbol_round_trip
                    [usd_record] CurrencyCodes.__init__ "USD" "$" Hrecords));
      [reflexivity|].
    intros item item' [<- | []] [<- | []] _ _. reflexivity.
Defined.

(** The scan passes over the records that have the key field with
    another value. *)
Lemma next_item_passes_over pre rest key value :
  Forall (passed_over key value) pre ->
  next_item (pre ++ rest)%list key value = next_item rest key value.
Proof.
  induction 1 as [| item pre [Hkey Hvalue] _ IH]; [reflexivity|].
  cbn [app next_item]. unfold py_subscript.
  unfold field_is in Hvalue.
  destruct (dict_lookup item key) as [v |]; [|contradiction].
  cbn [bind Monad_result]. rewrite Hvalue. exact IH.
Qed.

(** X15. The scan stops at the first match: what comes after it is never
    looked at, so a later record without the key field does no harm, and
    a later match is not the one returned.  Of the record found the
    requested field is read with [.get]: when the record lacks it the
    lookup returns [None]. *)
Theorem lookup_stops_at_the_first_match
  (kind : lookup_kind) (raw_data : table) (self : CurrencyCodes.t) (arg : string)
  (pre post : table) (item : pydict) :
  loaded_table raw_data self = (pre ++ item :: post)%list ->
  Forall (passed_over (key_field kind) arg) pre ->
  field_is (key_field kind) arg item = true ->
  snd (directory_lookup kind raw_data self arg)
  = Return (match dict_lookup item (read_field kind) with
            | Some v => v
            | None => PNone
            end).
Proof.
  intros Htable Hpre Hitem. rewrite directory_lookup_run. cbn [snd].
  rewrite Htable, (next_item_passes_over _ _ _ _ Hpre).
  cbn [next_item]. unfold py_subscript.
  rewrite (field_is_value _ _ _ Hitem). cbn [bind Monad_result py_eq_str].
  rewrite String.eqb_refl.
  destruct item as [| kv item].
  - unfold field_is in Hitem. discriminate.
  - reflexivity.
Qed.

Lemma lookup_stops_at_the_first_match_witness :
  snd (get_currency_code_from_symbol [usd_record; aud_record; nameless_record]
         CurrencyCodes.__init__ "$")
  = Return (PStr "USD")
  /\
  snd (get_currency_name [[("cc", PStr "XXX")]] CurrencyCodes.__init__ "XXX")
  = Return PNone.
Proof.
  split.
  - exact (lookup_stops_at_the_first_match
             CodeOfSymbol [usd_record; aud_record; nameless_record]
             CurrencyCodes.__init__ "$" [] [aud_record; nameless_record] usd_record
             eq_refl (Forall_nil _) eq_refl).
  - exact (lookup_stops_at_the_first_match
             NameOfCode [[("cc", PStr "XXX")]] CurrencyCodes.__init__ "XXX"
             [] [] [("cc", PStr "XXX")] eq_refl (Forall_nil _) eq_refl).
Defined.

(** X16. A record without the key field, reached before any match, makes
    the lookup raise [KeyError]: the key field is read with a subscript,
    not with [.get]. *)
Theorem lookup_raises_KeyError_on_a_record_without_key
  (kind : lookup_kind) (raw_data : table) (self : CurrencyCodes.t) (arg : string)
  (pre post : table) (item : pydict) :
  loaded_table raw_data self = (pre ++ item :: post)%list ->
  Forall (passed_over (key_field kind) arg) pre ->
  dict_lookup item (key_field kind) = None ->
  snd (directory_lookup kind raw_data self arg) = Raise KeyError.
Proof.
  intros Htable Hpre Hitem. rewrite directory_lookup_run. cbn [snd].
  rewrite Htable, (next_item_passes_over _ _ _ _ Hpre).
  cbn [next_item]. unfold py_subscript. rewrite Hitem. reflexivity.
Qed.

Lemma lookup_raises_KeyError_on_a_record_without_key_witness :
  snd (get_symbol [nameless_record; usd_record] CurrencyCodes.__init__ "USD")
  = Raise KeyError.
Proof.
  exact (lookup_raises_KeyError_on_a_record_without_key
           SymbolOfCode [nameless_record; usd_record] CurrencyCodes.__init__ "USD"
           [] [usd_record] nameless_record eq_refl (Forall_nil _) eq_refl).
Defined.

(* ================================================================= *)
(** * Further properties of the request *)

Lemma append_injective (p a b : string) : p ++ a = p ++ b -> a = b.
Proof.
  induction p as [| ch p IH]; cbn [String.append]; intros H; [exact H|].
  injection H as H. exact (IH H).
Qed.

Lemma ascii_of_N_injective a b :
  (a < 256)%N -> (b < 256)%N -> ascii_of_N a = ascii_of_N b -> a = b.
Proof.
  intros Ha Hb H. apply (f_equal N_of_ascii) in H.
  rewrite !N_ascii_embedding in H by assumption. exact H.
Qed.

Lemma digit_cons_injective a b (s s' : string) :
  (a < 10)%N -> (b < 10)%N -> digit a ++ s = digit b ++ s' -> a = b /\ s = s'.
Proof.
  unfold digit. cbn [String.append]. intros Ha Hb.
  remember (48 + a)%N as x eqn:Ex. remember (48 + b)%N as y eqn:Ey.
  intros H. injection H as Hc Hs. split; [|exact Hs].
  apply ascii_of_N_injective in Hc; lia.
Qed.

Lemma four_digits_value y :
  (y = 1000 * (y / 1000) + 100 * (y / 100 mod 10) + 10 * (y / 10 mod 10)
       + y mod 10)%N.
Proof. zify. Z.to_euclidean_division_equations. lia. Qed.

Lemma two_digits_value n : (n = 10 * (n / 10) + n mod 10)%N.
Proof. zify. Z.to_euclidean_division_equations. lia. Qed.

Lemma leading_digit n d : (n < 10 * d)%N -> (n / d < 10)%N.
Proof.
  intros H. apply N.Div0.div_lt_upper_bound. lia.
Qed.

Lemma last_digit n : (n mod 10 < 10)%N.
Proof. apply N.mod_lt. discriminate. Qed.

Lemma iso_date_injective d1 d2 :
  calendar_date d1 -> calendar_date d2 -> iso_date d1 = iso_date d2 -> d1 = d2.
Proof.
  destruct d1 as [y1 m1 day1], d2 as [y2 m2 day2].
  unfold calendar_date, iso_date. cbn [year month day].
  intros (Hy1 & Hm1 & Hd1) (Hy2 & Hm2 & Hd2) H.
  apply digit_cons_injective in H; [|apply leading_digit; lia ..].
  destruct H as [Ey1000 H].
  apply digit_cons_injective in H; [|apply last_digit ..].
  destruct H as [Ey100 H].
  apply digit_cons_injective in H; [|apply last_digit ..].
  destruct H as [Ey10 H].
  apply digit_cons_injective in H; [|apply last_digit ..].
  destruct H as [Ey0 H].
  apply (append_injective "-") in H.
  apply digit_cons_injective in H; [|apply leading_digit; lia ..].
  destruct H as [Em10 H].
  apply digit_cons_injective in H; [|apply last_digit ..].
  destruct H as [Em0 H].
  apply (append_injective "-") in H.
  apply digit_cons_injective in H; [|apply leading_digit; lia ..].
  destruct H as [Ed10 H].
  assert (Ed0 : (day1 mod 10 = day2 mod 10)%N).
  { change (digit (day1 mod 10)) with (digit (day1 mod 10) ++ "") in H.
    change (digit (day2 mod 10)) with (digit (day2 mod 10) ++ "") in H.
    apply digit_cons_injective in H; [|apply last_digit ..]. apply H. }
  f_equal.
  - etransitivity; [apply four_digits_value|].
    rewrite Ey1000, Ey100, Ey10, Ey0. symmetry. apply four_digits_value.
  - etransitivity; [apply two_digits_value|].
    rewrite Em10, Em0. symmetry. apply two_digits_value.
  - etransitivity; [apply two_digits_value|].
    rewrite Ed10, Ed0. symmetry. apply two_digits_value.
Qed.

(** X17. The date decides the endpoint: two different calendar dates
    (with four-digit years) are fetched from different URLs, and no dated
    request goes to the URL of the latest rates. *)
Theorem dated_requests_go_to_different_urls
  (self : Common.t) (base_cur : string) (dest_cur : option string)
  (d1 d2 : date) :
  calendar_date d1 ->
  calendar_date d2 ->
  (url (issued_request self base_cur dest_cur (Some d1))
   = url (issued_request self base_cur dest_cur (Some d2)) ->
   d1 = d2)
  /\
  url (issued_request self base_cur dest_cur (Some d1))
  <> url (issued_request self base_cur dest_cur None).
Proof.
  intros H1 H2. cbn [url issued_request _get_date_string]. split.
  - intros H. apply append_injective in H.
    rewrite !strftime_iso in H by assumption.
    exact (iso_date_injective _ _ H1 H2 H).
  - intros H. apply append_injective in H.
    rewrite strftime_iso in H by assumption.
    destruct H1 as (Hy & _).
    unfold iso_date in H.
    unfold digit at 1 in H. cbn [String.append] in H.
    remember (48 + year d1 / 1000)%N as x eqn:Ex.
    injection H as H _.
    change "l"%char with (ascii_of_N 108) in H.
    assert (Hx : (x < 58)%N)
      by (pose proof (leading_digit (year d1) 1000); lia).
    apply ascii_of_N_injective in H; lia.
Qed.

Lemma dated_requests_go_to_different_urls_witness :
  url (issued_request _CURRENCY_FORMATTER "USD" None
         (Some {| year := 2021; month := 1; day := 5 |}))
  <> url (issued_request _CURRENCY_FORMATTER "USD" None None).
Proof.
  assert (Hdate : calendar_date {| year := 2021; month := 1; day := 5 |})
    by (unfold calendar_date; simpl; lia).
  exact (proj2 (dated_requests_go_to_different_urls
                  _CURRENCY_FORMATTER "USD" None
                  {| year := 2021; month := 1; day := 5 |}
                  {| year := 2021; month := 1; day := 5 |}
                  Hdate Hdate)).
Defined.
